(** * grimoire_elk.enriched.utils: incremental-enrichment helpers

    A shallow embedding of [get_repository_filter], [get_time_diff_days],
    [unixtime_to_datetime], [get_last_enrich], [get_min_last_enrich] and
    [get_diff_current_date] of [grimoire_elk/enriched/utils.py], with the
    Python values, exceptions and library calls they rely on. *)

From Stdlib Require Import ZArith String Ascii List Bool Lia.
From Stdlib Require Import Floats.SpecFloat.
From stdpp Require Import base gmap strings list.

#[local] Set Warnings "-register-all".
#[local] Open Scope string_scope.
#[local] Open Scope Z_scope.

(** ** Python exceptions and the error monad *)

Inductive exn :=
| AttributeError
| TypeError
| JSONDecodeError
| ParserError.

Inductive result (A : Type) :=
| Ok (a : A)
| Raise (e : exn).
Arguments Ok {A} a.
Arguments Raise {A} e.

#[global] Instance result_ret : MRet result := fun A a => Ok a.
#[global] Instance result_bind : MBind result := fun A B k r =>
  match r with
  | Ok a => k a
  | Raise e => Raise e
  end.

(** [try: body except AttributeError: handler] *)
Definition try_except_AttributeError {A} (body handler : result A) : result A :=
  match body with
  | Raise AttributeError => handler
  | r => r
  end.

(** An attribute of a Python object: it may not exist at all, and reading
    a missing one raises [AttributeError]. *)
Inductive attr (A : Type) :=
| NoAttr
| Attr (v : A).
Arguments NoAttr {A}.
Arguments Attr {A} v.

Definition getattr {A} (a : attr A) : result A :=
  match a with
  | Attr v => Ok v
  | NoAttr => Raise AttributeError
  end.

(** ** [datetime.datetime]

    The date and time fields are held as the number of microseconds they
    spell since 0001-01-01T00:00:00 (the proleptic Gregorian ordinal that
    [datetime] itself uses for arithmetic); [tzinfo] is [None] for a
    naive value and otherwise the UTC offset, in microseconds. *)

Record datetime := mk_datetime {
  wall : Z;
  tzinfo : option Z
}.

Definition US_PER_SECOND : Z := 1000000.
Definition US_PER_DAY : Z := 86400 * US_PER_SECOND.

Definition is_leap (y : Z) : bool :=
  (y mod 4 =? 0) && (negb (y mod 100 =? 0) || (y mod 400 =? 0)).

Definition days_before_year (y : Z) : Z :=
  let y1 := y - 1 in y1 * 365 + y1 / 4 - y1 / 100 + y1 / 400.

Definition days_in_month (y m : Z) : Z :=
  if m =? 2 then (if is_leap y then 29 else 28)
  else if (m =? 4) || (m =? 6) || (m =? 9) || (m =? 11) then 30
  else 31.

Fixpoint days_before_month_aux (y : Z) (n : nat) : Z :=
  match n with
  | O => 0
  | S k => days_before_month_aux y k + days_in_month y (Z.of_nat n)
  end.

Definition days_before_month (y m : Z) : Z :=
  days_before_month_aux y (Z.to_nat (m - 1)).

(** [datetime(y, m, d, hh, mm, ss).toordinal() - 1], in microseconds *)
Definition naive (y m d hh mm ss : Z) : datetime :=
  {| wall := (days_before_year y + days_before_month y m + (d - 1)) * US_PER_DAY
             + ((hh * 60 + mm) * 60 + ss) * US_PER_SECOND;
     tzinfo := None |}.

(** [dt.replace(tzinfo=tz)]: the fields are kept, only the zone changes. *)
Definition replace_tzinfo (tz : option Z) (d : datetime) : datetime :=
  {| wall := wall d; tzinfo := tz |}.

(** [a == b]: two naive values compare their fields, two aware ones their
    UTC instants, and a naive value never equals an aware one. *)
Definition dt_eq (a b : datetime) : bool :=
  match tzinfo a, tzinfo b with
  | None, None => wall a =? wall b
  | Some oa, Some ob => (wall a - oa) =? (wall b - ob)
  | _, _ => false
  end.

Definition dt_ne (a b : datetime) : bool := negb (dt_eq a b).

(** [a < b]: ordering a naive against an aware value raises [TypeError]. *)
Definition dt_lt (a b : datetime) : result bool :=
  match tzinfo a, tzinfo b with
  | None, None => Ok (wall a <? wall b)
  | Some oa, Some ob => Ok ((wall a - oa) <? (wall b - ob))
  | _, _ => Raise TypeError
  end.

(** [min(a, b)]: the first argument unless the second is strictly smaller. *)
Definition py_min (a b : datetime) : result datetime :=
  lt ← dt_lt b a; Ok (if lt : bool then b else a).

(** [a - b] as a [timedelta], in microseconds. *)
Definition dt_sub (a b : datetime) : result Z :=
  match tzinfo a, tzinfo b with
  | None, None => Ok (wall a - wall b)
  | Some oa, Some ob => Ok ((wall a - oa) - (wall b - ob))
  | _, _ => Raise TypeError
  end.

(** ** Python values held in dictionaries

    A [str] is held as the bytes of its UTF-8 encoding. *)

Inductive pyval :=
| PNone
| PBool (b : bool)
| PInt (z : Z)
| PFloat (f : spec_float)
| PStr (s : string)
| PList (l : list pyval)
| PDict (d : gmap string pyval).

(** ** Python [float]: IEEE 754 binary64 *)

Definition prec64 : Z := 53.
Definition emax64 : Z := 1024.

Definition f64_div : spec_float -> spec_float -> spec_float := SFdiv prec64 emax64.

(** The binary64 closest to the quotient [n / d] of two positive integers
    (ties to even), with sign [neg]. *)
Definition f64_of_ratio (neg : bool) (n d : positive) : spec_float :=
  let '(q, e, l) := SFdiv_core_binary prec64 emax64 (Zpos n) 0 (Zpos d) 0 in
  binary_round_aux prec64 emax64 neg q e l.

(** [float(n)] for an integer. *)
Definition f64_of_Z (n : Z) : spec_float :=
  binary_normalize prec64 emax64 n 0 false.

(** [int / int], Python's true division of integers (correctly rounded);
    the divisor is not zero where the code divides. *)
Definition int_truediv (n d : Z) : spec_float :=
  match n, d with
  | Z0, _ => S754_zero false
  | Zpos a, Zpos b => f64_of_ratio false a b
  | Zneg a, Zneg b => f64_of_ratio false a b
  | Zpos a, Zneg b => f64_of_ratio true a b
  | Zneg a, Zpos b => f64_of_ratio true a b
  | _, Z0 => S754_nan
  end.

(** The decimal [(-1)^neg * m * 10^e] read as a float, as [float(str)] and
    the JSON decoder read a numeric literal. *)
Definition f64_of_decimal (neg : bool) (m : Z) (e : Z) : spec_float :=
  match m with
  | Zpos p =>
      match e with
      | Zneg k => f64_of_ratio neg p (Pos.pow 10 k)
      | Z0 => f64_of_ratio neg p 1
      | Zpos k => f64_of_ratio neg (p * Pos.pow 10 k) 1
      end
  | _ => S754_zero neg
  end.

(** ** [json.loads]

    The decoder of CPython's [json] module (the default, strict one).  Its
    recursion limit and the limit on the digits of an integer literal are
    not modelled. *)

Definition dquote : ascii := Eval cbv in ascii_of_nat 34.
Definition backslash : ascii := Eval cbv in ascii_of_nat 92.
Definition char_tab : ascii := Eval cbv in ascii_of_nat 9.
Definition char_lf : ascii := Eval cbv in ascii_of_nat 10.
Definition char_cr : ascii := Eval cbv in ascii_of_nat 13.
Definition char_bs : ascii := Eval cbv in ascii_of_nat 8.
Definition char_ff : ascii := Eval cbv in ascii_of_nat 12.

Definition is_ws (c : ascii) : bool :=
  Ascii.eqb c " " || Ascii.eqb c char_tab || Ascii.eqb c char_lf || Ascii.eqb c char_cr.

Fixpoint skip_ws (s : string) : string :=
  match s with
  | String c rest => if is_ws c then skip_ws rest else s
  | EmptyString => s
  end.

Definition is_digit (c : ascii) : bool :=
  let n := nat_of_ascii c in (48 <=? n)%nat && (n <=? 57)%nat.

Definition digit_val (c : ascii) : Z := Z.of_nat (nat_of_ascii c) - 48.

Definition hex_val (c : ascii) : option Z :=
  let n := Z.of_nat (nat_of_ascii c) in
  if (48 <=? n) && (n <=? 57) then Some (n - 48)
  else if (65 <=? n) && (n <=? 70) then Some (n - 55)
  else if (97 <=? n) && (n <=? 102) then Some (n - 87)
  else None.

(** The four hexadecimal digits after [\u]. *)
Definition decode_uXXXX (s : string) : option (Z * string) :=
  match s with
  | String a (String b (String c (String d rest))) =>
      match hex_val a, hex_val b, hex_val c, hex_val d with
      | Some x, Some y, Some z, Some w => Some (((x * 16 + y) * 16 + z) * 16 + w, rest)
      | _, _, _, _ => None
      end
  | _ => None
  end.

Definition byte (n : Z) : ascii := ascii_of_nat (Z.to_nat n).

(** The UTF-8 bytes of a code point (a lone surrogate takes the three-byte form). *)
Definition utf8 (cp : Z) : string :=
  if cp <? 128 then String (byte cp) ""
  else if cp <? 2048 then
    String (byte (192 + cp / 64)) (String (byte (128 + cp mod 64)) "")
  else if cp <? 65536 then
    String (byte (224 + cp / 4096))
      (String (byte (128 + (cp / 64) mod 64)) (String (byte (128 + cp mod 64)) ""))
  else
    String (byte (240 + cp / 262144))
      (String (byte (128 + (cp / 4096) mod 64))
         (String (byte (128 + (cp / 64) mod 64)) (String (byte (128 + cp mod 64)) ""))).

Definition backslash_char (c : ascii) : option ascii :=
  if Ascii.eqb c dquote then Some dquote
  else if Ascii.eqb c backslash then Some backslash
  else if Ascii.eqb c "/" then Some "/"%char
  else if Ascii.eqb c "b" then Some char_bs
  else if Ascii.eqb c "f" then Some char_ff
  else if Ascii.eqb c "n" then Some char_lf
  else if Ascii.eqb c "r" then Some char_cr
  else if Ascii.eqb c "t" then Some char_tab
  else None.

(** A [\uXXXX] escape whose digits were just read as [uni]: a high
    surrogate followed by an escaped low surrogate is one code point. *)
Definition join_surrogates (uni : Z) (rest : string) : Z * string :=
  if (55296 <=? uni) && (uni <=? 56319) then
    match rest with
    | String c1 (String c2 rest2) =>
        if Ascii.eqb c1 backslash && Ascii.eqb c2 "u" then
          match decode_uXXXX rest2 with
          | Some (lo, rest3) =>
              if (56320 <=? lo) && (lo <=? 57343)
              then (65536 + (uni - 55296) * 1024 + (lo - 56320), rest3)
              else (uni, rest)
          | None => (uni, rest)
          end
        else (uni, rest)
    | _ => (uni, rest)
    end
  else (uni, rest).

(** [scanstring]: the text after an opening quote, up to the closing one;
    returns the decoded string and what follows the closing quote. *)
Fixpoint scanstring_fuel (fuel : nat) (s : string) : result (string * string) :=
  match fuel with
  | O => Raise JSONDecodeError
  | S fuel =>
      match s with
      | EmptyString => Raise JSONDecodeError
      | String c rest =>
          if Ascii.eqb c dquote then Ok ("", rest)
          else if Ascii.eqb c backslash then
            match rest with
            | EmptyString => Raise JSONDecodeError
            | String e rest1 =>
                if Ascii.eqb e "u" then
                  match decode_uXXXX rest1 with
                  | None => Raise JSONDecodeError
                  | Some (uni, rest2) =>
                      let '(cp, rest3) := join_surrogates uni rest2 in
                      '(tail, r) ← scanstring_fuel fuel rest3;
                      Ok (utf8 cp +:+ tail, r)
                  end
                else
                  match backslash_char e with
                  | None => Raise JSONDecodeError
                  | Some ch =>
                      '(tail, r) ← scanstring_fuel fuel rest1;
                      Ok (String ch tail, r)
                  end
            end
          else if (nat_of_ascii c <? 32)%nat then Raise JSONDecodeError
          else
            '(tail, r) ← scanstring_fuel fuel rest;
            Ok (String c tail, r)
      end
  end.

Definition scanstring (s : string) : result (string * string) :=
  scanstring_fuel (String.length s) s.

(** [s] without its first character when that is [c]. *)
Definition take_char (c : ascii) (s : string) : option string :=
  match s with
  | String a rest => if Ascii.eqb a c then Some rest else None
  | EmptyString => None
  end.

Fixpoint span_digits (s : string) : string * string :=
  match s with
  | String c rest =>
      if is_digit c then let '(ds, r) := span_digits rest in (String c ds, r)
      else ("", s)
  | EmptyString => ("", s)
  end.

Fixpoint digits_val (acc : Z) (s : string) : Z :=
  match s with
  | String c rest => digits_val (acc * 10 + digit_val c) rest
  | EmptyString => acc
  end.

Fixpoint strip_prefix (p s : string) : option string :=
  match p, s with
  | EmptyString, _ => Some s
  | String a p', String b s' => if Ascii.eqb a b then strip_prefix p' s' else None
  | String _ _, EmptyString => None
  end.

(** The integer part of a number: [0], or a nonzero digit and more digits. *)
Definition match_int_part (s : string) : option (string * string) :=
  match s with
  | String c rest =>
      if Ascii.eqb c "0" then Some ("0", rest)
      else if is_digit c then Some (span_digits s)
      else None
  | EmptyString => None
  end.

(** The fraction: a dot and at least one digit, else nothing is taken. *)
Definition match_frac (s : string) : string * string :=
  match take_char "." s with
  | Some rest =>
      match span_digits rest with
      | (EmptyString, _) => ("", s)
      | (ds, r) => (ds, r)
      end
  | None => ("", s)
  end.

(** The exponent: [e] or [E], a sign if any, at least one digit; else
    nothing is taken. *)
Definition match_exp (s : string) : option Z * string :=
  match s with
  | String c rest =>
      if Ascii.eqb c "e" || Ascii.eqb c "E" then
        let '(sign, rest1) :=
          match take_char "+" rest with
          | Some r => (1, r)
          | None =>
              match take_char "-" rest with
              | Some r => (-1, r)
              | None => (1, rest)
              end
          end in
        match span_digits rest1 with
        | (EmptyString, _) => (None, s)
        | (ds, r) => (Some (sign * digits_val 0 ds), r)
        end
      else (None, s)
  | EmptyString => (None, s)
  end.

Definition match_number (s : string) : option (pyval * string) :=
  let '(neg, s1) :=
    match take_char "-" s with
    | Some r => (true, r)
    | None => (false, s)
    end in
  match match_int_part s1 with
  | None => None
  | Some (ip, r1) =>
      let '(fr, r2) := match_frac r1 in
      let '(ex, r3) := match_exp r2 in
      match fr, ex with
      | EmptyString, None =>
          let n := digits_val 0 ip in Some (PInt (if neg then - n else n), r3)
      | _, _ =>
          let e := match ex with Some e => e | None => 0 end in
          Some (PFloat (f64_of_decimal neg (digits_val 0 (ip +:+ fr))
                          (e - Z.of_nat (String.length fr))), r3)
      end
  end.

(** The literals tried before a number is. *)
Definition match_literal (s : string) : option (pyval * string) :=
  match strip_prefix "null" s with
  | Some r => Some (PNone, r)
  | None =>
  match strip_prefix "true" s with
  | Some r => Some (PBool true, r)
  | None =>
  match strip_prefix "false" s with
  | Some r => Some (PBool false, r)
  | None =>
  match strip_prefix "NaN" s with
  | Some r => Some (PFloat S754_nan, r)
  | None =>
  match strip_prefix "Infinity" s with
  | Some r => Some (PFloat (S754_infinity false), r)
  | None =>
  match strip_prefix "-Infinity" s with
  | Some r => Some (PFloat (S754_infinity true), r)
  | None => None
  end end end end end end.

(** [scan_once] with the object and array loops it calls; every call is
    on a shorter text, so a fuel of one more than the length is never
    used up. *)
Fixpoint scan_once (fuel : nat) (s : string) : result (pyval * string) :=
  match fuel with
  | O => Raise JSONDecodeError
  | S fuel =>
      match take_char dquote s with
      | Some rest => '(str, r) ← scanstring rest; Ok (PStr str, r)
      | None =>
      match take_char "{" s with
      | Some rest =>
          match take_char "}" (skip_ws rest) with
          | Some r => Ok (PDict ∅, r)
          | None => '(d, r) ← object_members fuel (skip_ws rest) ∅; Ok (PDict d, r)
          end
      | None =>
      match take_char "[" s with
      | Some rest =>
          match take_char "]" (skip_ws rest) with
          | Some r => Ok (PList [], r)
          | None => '(l, r) ← array_items fuel (skip_ws rest); Ok (PList l, r)
          end
      | None =>
      match match_literal s with
      | Some vr => Ok vr
      | None =>
      match match_number s with
      | Some vr => Ok vr
      | None => Raise JSONDecodeError
      end end end end end
  end
with object_members (fuel : nat) (s : string) (acc : gmap string pyval)
  : result (gmap string pyval * string) :=
  match fuel with
  | O => Raise JSONDecodeError
  | S fuel =>
      match take_char dquote s with
      | Some rest =>
          '(key, r1) ← scanstring rest;
          match take_char ":" (skip_ws r1) with
          | Some r2 =>
              '(v, r3) ← scan_once fuel (skip_ws r2);
              let acc1 := <[key := v]> acc in
              match take_char "}" (skip_ws r3) with
              | Some r4 => Ok (acc1, r4)
              | None =>
                  match take_char "," (skip_ws r3) with
                  | Some r4 => object_members fuel (skip_ws r4) acc1
                  | None => Raise JSONDecodeError
                  end
              end
          | None => Raise JSONDecodeError
          end
      | None => Raise JSONDecodeError
      end
  end
with array_items (fuel : nat) (s : string) : result (list pyval * string) :=
  match fuel with
  | O => Raise JSONDecodeError
  | S fuel =>
      '(v, r1) ← scan_once fuel s;
      match take_char "]" (skip_ws r1) with
      | Some r2 => Ok ([v], r2)
      | None =>
          match take_char "," (skip_ws r1) with
          | Some r2 => '(l, r3) ← array_items fuel (skip_ws r2); Ok (v :: l, r3)
          | None => Raise JSONDecodeError
          end
      end
  end.

(** [json.loads(s)]: one value, with white space around it and nothing else. *)
Definition json_loads (s : string) : result pyval :=
  '(v, r) ← scan_once (S (String.length s)) (skip_ws s);
  match skip_ws r with
  | EmptyString => Ok v
  | _ => Raise JSONDecodeError
  end.

Definition q (s : string) : string := String dquote (s +:+ String dquote "").
Definition nl : string := String char_lf "".

(** ** The collaborators of the helpers *)

(** A Perceval backend (the source connector): its [origin] and [tag], and
    the parameter names of its [fetch] as [inspect.signature] lists them. *)
Record connector := {
  origin : string;
  tag : string;
  fetch_parameters : list string
}.

(** The [parsed_args] namespace of a command in Perceval's newer layout. *)
Record parsed_args := {
  pa_from_date : attr (option datetime);
  pa_offset : attr (option Z)
}.

(** A backend command (the command descriptor): [from_date] and [offset]
    are attributes of the command itself or of its [parsed_args]. *)
Record backend_cmd := {
  backend : connector;
  cmd_from_date : attr (option datetime);
  cmd_offset : attr (option Z);
  cmd_parsed_args : attr parsed_args
}.

(** The enrich backend (the enrichment target): the queries take the
    filter list when the caller passes one. *)
Record enrich_backend := {
  get_connector_name : string;
  eb_from_date : option datetime;
  get_last_update_from_es : option (list pyval) -> option datetime;
  get_last_offset_from_es : option (list pyval) -> option Z
}.

(** What [get_last_enrich] returns: [None], a timestamp or an offset. *)
Inductive watermark :=
| WNone
| WDate (d : datetime)
| WOffset (n : Z).

Definition watermark_of_date (o : option datetime) : watermark :=
  match o with
  | Some d => WDate d
  | None => WNone
  end.

Definition watermark_of_offset (o : option Z) : watermark :=
  match o with
  | Some n => WOffset n
  | None => WNone
  end.

(** An argument of [get_time_diff_days]: [None], a [datetime] or a string. *)
Inductive date_arg :=
| DNone
| DDatetime (d : datetime)
| DStr (s : string).

(** ['%.2f' % x] for a finite float: the sign and the hundredths, the
    exact binary value rounded to the nearest hundredth, ties to even. *)
Definition round_half_even_div (n d : Z) : Z :=
  let q := n / d in
  let r := n mod d in
  match Z.compare (2 * r) d with
  | Lt => q
  | Gt => q + 1
  | Eq => if Z.even q then q else q + 1
  end.

Definition format_2f (x : spec_float) : option (bool * Z) :=
  match x with
  | S754_zero s => Some (s, 0)
  | S754_finite s m e =>
      Some (s, match e with
               | Zneg k => round_half_even_div (100 * Zpos m) (Zpos (Pos.pow 2 k))
               | _ => 100 * Zpos m * 2 ^ e
               end)
  | _ => None
  end.

(** [float('%.2f' % x)]; the text is held as its sign and hundredths. *)
Definition float_of_format_2f (x : spec_float) : spec_float :=
  match format_2f x with
  | Some (s, h) => f64_of_decimal s h (-2)
  | None => x
  end.

Section Utils.

(** [GITHUB] of [grimoire_elk.enriched.github], the site URL. *)
Variable GITHUB : string.

(** [dateutil.parser.parse]; it raises on a text it cannot read. *)
Variable parser_parse : string -> result datetime.

(** The text of the term filter, [''' ... ''' % (field, value)]. *)
Definition term_text (field value : string) : string :=
  nl +:+ "                {" +:+ q "term" +:+ ":" +:+ nl
  +:+ "                    { " +:+ q field +:+ " : " +:+ q value +:+ "  }" +:+ nl
  +:+ "                }" +:+ nl
  +:+ "            ".

Definition get_repository_filter (perceval_backend : option connector)
    (perceval_backend_name : string) (term : bool) : result pyval :=
  let filter_ := PDict ∅ in
  match perceval_backend with
  | None => Ok filter_
  | Some pb =>
      let '(field, value) :=
        if bool_decide (perceval_backend_name ∈ ["meetup"; "nntp"; "stackexchange"; "jira"])
        then ("tag", tag pb)
        else ("origin", origin pb) in
      filter_ ←
        (if negb term then
           Ok (PDict {[ "name" := PStr field; "value" := PStr value ]})
         else
           json_loads (term_text field value));
      if bool_decide (value ∈ [""; GITHUB +:+ "/"; "https://meetup.com/"])
      then Ok (PDict ∅)
      else Ok filter_
  end.

(** [parser.parse(x).replace(tzinfo=None)] unless [x] is a [datetime]. *)
Definition as_datetime (x : date_arg) : result datetime :=
  match x with
  | DDatetime d => Ok d
  | DStr s => d ← parser_parse s; Ok (replace_tzinfo None d)
  | DNone => Raise TypeError
  end.

(** [timedelta.total_seconds()] *)
Definition total_seconds (td : Z) : spec_float := int_truediv td (10 ^ 6).

Definition get_time_diff_days (start end_ : date_arg) : result (option spec_float) :=
  match start, end_ with
  | DNone, _ | _, DNone => Ok None
  | _, _ =>
      start ← as_datetime start;
      end_ ← as_datetime end_;
      let seconds_day := f64_of_Z (60 * 60 * 24) in
      td ← dt_sub end_ start;
      let diff_days := f64_div (total_seconds td) seconds_day in
      let diff_days := float_of_format_2f diff_days in
      Ok (Some diff_days)
  end.

Definition get_min_last_enrich (last_enrich last_enrich_filtered : option datetime)
  : result (option datetime) :=
  let min_enrich := last_enrich in
  match last_enrich_filtered with
  | Some f =>
      match last_enrich with
      | Some b => m ← py_min b (replace_tzinfo None f); Ok (Some m)
      | None => Raise TypeError
      end
  | None => Ok min_enrich
  end.

(** Lines 156-162: [from_date] is read only when [fetch] declares it, from
    the command and, failing that, from its [parsed_args]. *)
Definition lookup_from_date (cmd : backend_cmd) : result (option datetime) :=
  if bool_decide ("from_date" ∈ fetch_parameters (backend cmd)) then
    try_except_AttributeError
      (getattr (cmd_from_date cmd))
      (pa ← getattr (cmd_parsed_args cmd); getattr (pa_from_date pa))
  else Ok None.

(** Lines 164-169: the same for [offset]. *)
Definition lookup_offset (cmd : backend_cmd) : result (option Z) :=
  if bool_decide ("offset" ∈ fetch_parameters (backend cmd)) then
    try_except_AttributeError
      (getattr (cmd_offset cmd))
      (pa ← getattr (cmd_parsed_args cmd); getattr (pa_offset pa))
  else Ok None.

Definition get_last_enrich (backend_cmd : option backend_cmd)
    (enrich_backend : enrich_backend) : result watermark :=
  match backend_cmd with
  | Some cmd =>
      let backend := backend cmd in
      let backend_name := get_connector_name enrich_backend in
      filter_ ← get_repository_filter (Some backend) backend_name false;
      from_date ← lookup_from_date cmd;
      offset ← lookup_offset cmd;
      match from_date, offset with
      | Some from_date, _ =>
          epoch ← parser_parse "1970-01-01";
          if dt_ne (replace_tzinfo None from_date) epoch then
            Ok (WDate from_date)
          else
            match eb_from_date enrich_backend with
            | None => Ok WNone
            | Some _ =>
                let last_enrich_filtered :=
                  get_last_update_from_es enrich_backend (Some [filter_]) in
                m ← get_min_last_enrich (eb_from_date enrich_backend) last_enrich_filtered;
                Ok (watermark_of_date m)
            end
      | None, Some offset =>
          if negb (offset =? 0) then Ok (WOffset offset)
          else Ok (watermark_of_offset
                     (get_last_offset_from_es enrich_backend (Some [filter_])))
      | None, None =>
          match eb_from_date enrich_backend with
          | None => Ok WNone
          | Some _ =>
              let last_enrich_filtered :=
                get_last_update_from_es enrich_backend (Some [filter_]) in
              m ← get_min_last_enrich (eb_from_date enrich_backend) last_enrich_filtered;
              Ok (watermark_of_date m)
          end
      end
  | None => Ok (watermark_of_date (get_last_update_from_es enrich_backend None))
  end.

End Utils.

(** ** A date parser for the examples

    [isoparse] reads the ISO 8601 layouts [YYYY-MM-DD] and
    [YYYY-MM-DDTHH:MM:SS], the latter with an optional [Z] or [+HH:MM] /
    [-HH:MM], to the value dateutil gives them, and raises on any other
    text.  The properties below hold for every parser; this one
    instantiates them on concrete dates. *)

Definition take_digits2 (s : string) : option (Z * string) :=
  match s with
  | String a (String b rest) =>
      if is_digit a && is_digit b then Some (digit_val a * 10 + digit_val b, rest)
      else None
  | _ => None
  end.

Definition iso_date (s : string) : option (Z * Z * Z * string) :=
  '(c, s) ← take_digits2 s;
  '(y, s) ← take_digits2 s;
  s ← take_char "-" s;
  '(m, s) ← take_digits2 s;
  s ← take_char "-" s;
  '(d, s) ← take_digits2 s;
  let y := c * 100 + y in
  if (1 <=? y) && (1 <=? m) && (m <=? 12) && (1 <=? d) && (d <=? days_in_month y m)
  then Some (y, m, d, s) else None.

Definition iso_time (s : string) : option (Z * Z * Z * string) :=
  '(hh, s) ← take_digits2 s;
  s ← take_char ":" s;
  '(mm, s) ← take_digits2 s;
  s ← take_char ":" s;
  '(ss, s) ← take_digits2 s;
  if (hh <? 24) && (mm <? 60) && (ss <? 60) then Some (hh, mm, ss, s) else None.

Definition iso_zone (s : string) : option (option Z) :=
  match s with
  | EmptyString => Some None
  | String "Z" EmptyString => Some (Some 0)
  | String sign rest =>
      sgn ← (if Ascii.eqb sign "+" then Some 1
             else if Ascii.eqb sign "-" then Some (-1) else None);
      '(hh, rest) ← take_digits2 rest;
      rest ← take_char ":" rest;
      '(mm, rest) ← take_digits2 rest;
      match rest with
      | EmptyString =>
          if (hh <? 24) && (mm <? 60)
          then Some (Some (sgn * ((hh * 60 + mm) * 60 * US_PER_SECOND)))
          else None
      | _ => None
      end
  end.

Definition isoparse (s : string) : result datetime :=
  match iso_date s with
  | Some (y, m, d, EmptyString) => Ok (naive y m d 0 0 0)
  | Some (y, m, d, String "T" rest) =>
      match iso_time rest with
      | Some (hh, mm, ss, rest) =>
          match iso_zone rest with
          | Some tz => Ok (replace_tzinfo tz (naive y m d hh mm ss))
          | None => Raise ParserError
          end
      | None => Raise ParserError
      end
  | _ => Raise ParserError
  end.

(** ** Predicates used in the statements *)

(** A text that a JSON string literal holds as it is: no quote, no
    backslash, no control character. *)
Fixpoint json_plain (s : string) : bool :=
  match s with
  | EmptyString => true
  | String c rest =>
      negb (Ascii.eqb c dquote) && negb (Ascii.eqb c backslash)
      && negb (nat_of_ascii c <? 32)%nat && json_plain rest
  end.

Definition is_timestamp_or_null (w : watermark) : bool :=
  match w with
  | WOffset _ => false
  | _ => true
  end.

Definition is_offset_or_null (w : watermark) : bool :=
  match w with
  | WDate _ => false
  | _ => true
  end.

(** [h] hundredths is a closest two-decimal number to the magnitude of
    the finite float [x], in exact arithmetic. *)
Definition nearest_hundredths (x : spec_float) (h : Z) : Prop :=
  match x with
  | S754_zero _ => h = 0
  | S754_finite _ m e =>
      match e with
      | Zneg k => 2 * Z.abs (100 * Zpos m - h * Zpos (Pos.pow 2 k)) <= Zpos (Pos.pow 2 k)
      | _ => h = 100 * Zpos m * 2 ^ e
      end
  | _ => False
  end.

(** [r] is the float [x] rounded to two decimals: the binary64 closest to
    a two-decimal number closest to [x], with the sign of [x]; an infinite
    or undefined [x] stays as it is. *)
Definition rounded_to_hundredths (x r : spec_float) : Prop :=
  match x with
  | S754_zero s | S754_finite s _ _ =>
      exists h, nearest_hundredths x h /\ r = f64_of_decimal s h (-2)
  | _ => r = x
  end.

(** The sentinel [parser.parse("1970-01-01")] stands for. *)
Definition epoch_start : datetime := naive 1970 1 1 0 0 0.

(** No explicit parameter applies: the [from_date] read is the sentinel
    once its zone is dropped, or neither a [from_date] nor an [offset]
    was read. *)
Definition no_explicit_parameter (fd : option datetime) (off : option Z) : bool :=
  match fd, off with
  | Some d, _ => dt_eq (replace_tzinfo None d) epoch_start
  | None, None => true
  | None, Some _ => false
  end.

(** The baseline branch, as lines 175-181 and again lines 190-194 have it. *)
Definition baseline_branch (eb : enrich_backend) (filter_ : pyval) : result watermark :=
  match eb_from_date eb with
  | None => Ok WNone
  | Some _ =>
      m ← get_min_last_enrich (eb_from_date eb)
            (get_last_update_from_es eb (Some [filter_]));
      Ok (watermark_of_date m)
  end.

(** ** Concrete collaborators for the examples *)

Definition git_backend : connector :=
  {| origin := "https://github.com/chaoss/grimoirelab-elk";
     tag := "elk";
     fetch_parameters := ["category"; "from_date"] |}.

Definition kitsune_backend : connector :=
  {| origin := "https://support.mozilla.org";
     tag := "kitsune";
     fetch_parameters := ["category"; "offset"] |}.

Definition command (b : connector) (fd : attr (option datetime))
    (off : attr (option Z)) : backend_cmd :=
  {| backend := b; cmd_from_date := fd; cmd_offset := off; cmd_parsed_args := NoAttr |}.

(** A command in the newer layout: the arguments live in [parsed_args]. *)
Definition parsed_command (b : connector) (fd : attr (option datetime))
    (off : attr (option Z)) : backend_cmd :=
  {| backend := b; cmd_from_date := NoAttr; cmd_offset := NoAttr;
     cmd_parsed_args := Attr {| pa_from_date := fd; pa_offset := off |} |}.

(** An enrich backend over an index: [upd_all] is the last update of the
    whole index, [upd_repo] and [off] what the filtered queries find. *)
Definition enriched (name : string) (baseline upd_all upd_repo : option datetime)
    (off : option Z) : enrich_backend :=
  {| get_connector_name := name;
     eb_from_date := baseline;
     get_last_update_from_es := fun filters =>
       match filters with
       | None | Some [] => upd_all
       | Some _ => upd_repo
       end;
     get_last_offset_from_es := fun _ => off |}.

Definition utc (d : datetime) : datetime := replace_tzinfo (Some 0) d.

Definition github_url : string := "https://github.com/".

(** The git connector of this repository, never enriched with an explicit
    date, over an index whose baseline is 2020-01-10 and whose last item
    of the repository is of 2020-01-05. *)
Definition git_default_cmd : backend_cmd :=
  command git_backend (Attr (Some (utc epoch_start))) NoAttr.

Definition git_index : enrich_backend :=
  enriched "git" (Some (naive 2020 1 10 0 0 0))
    (Some (utc (naive 2020 1 12 0 0 0))) (Some (utc (naive 2020 1 5 0 0 0))) None.

Definition git_filter : pyval :=
  PDict {[ "name" := PStr "origin";
           "value" := PStr "https://github.com/chaoss/grimoirelab-elk" ]}.

Definition kitsune_index : enrich_backend :=
  enriched "kitsune" (Some (naive 2020 1 10 0 0 0)) None None (Some 3400).

Definition kitsune_filter : pyval :=
  PDict {[ "name" := PStr "origin"; "value" := PStr "https://support.mozilla.org" ]}.

Definition jira_backend : connector :=
  {| origin := "https://jira.example.org";
     tag := "https://jira.example.org/projects/ELK";
     fetch_parameters := ["category"; "from_date"] |}.

Definition github_root : connector :=
  {| origin := "https://github.com//"; tag := "https://meetup.com/";
     fetch_parameters := ["category"; "from_date"] |}.


(** ** The helpers that read a clock or a Unix time *)

(** The first instant after the years [datetime] covers, 1 to 9999. *)
Definition MAX_WALL : Z := days_before_year 10000 * US_PER_DAY.

Definition in_datetime_range (w : Z) : bool := (0 <=? w) && (w <? MAX_WALL).

(** [unixtime_to_datetime(ut)] for an integer [ut]:
    [datetime.utcfromtimestamp] gives the naive UTC fields, [replace] sets
    the zone to UTC.  [None] stands for the exception [utcfromtimestamp]
    raises on a time outside the years 1 to 9999 (which one depends on the
    platform; the helper lets it through); the platform's [gmtime] is
    taken to cover those years, as on Linux. *)
Definition unixtime_to_datetime (ut : Z) : option datetime :=
  let w := wall (naive 1970 1 1 0 0 0) + ut * US_PER_SECOND in
  if in_datetime_range w then
    let dt := {| wall := w; tzinfo := None |} in
    Some (replace_tzinfo (Some 0) dt)
  else None.

(** [datetime.timedelta(days=, hours=, minutes=)] of integers, in
    microseconds; [None] stands for its [OverflowError], raised when the
    normalised days leave [-999999999, 999999999]. *)
Definition timedelta (days hours minutes : Z) : option Z :=
  let us := ((days * 24 + hours) * 60 + minutes) * 60 * US_PER_SECOND in
  if (-999999999 <=? us / US_PER_DAY) && (us / US_PER_DAY <=? 999999999)
  then Some us else None.

(** [get_diff_current_date]: [datetime_utcnow] is the clock as read by
    [grimoirelab_toolkit.datetime.datetime_utcnow()]; the subtraction
    works on the fields and keeps the zone, and raises [OverflowError]
    ([None]) when it leaves the years 1 to 9999. *)
Definition get_diff_current_date (datetime_utcnow : datetime)
    (days hours minutes : Z) : option datetime :=
  td ← timedelta days hours minutes;
  let w := wall datetime_utcnow - td in
  if in_datetime_range w
  then Some {| wall := w; tzinfo := tzinfo datetime_utcnow |}
  else None.

(** A text that [scanstring] stops on with an error right after a plain
    prefix: a control character, or a backslash that starts no escape. *)
Definition breaks_json (rest : string) : bool :=
  match rest with
  | EmptyString => false
  | String c rest1 =>
      if Ascii.eqb c dquote then false
      else if Ascii.eqb c backslash then
        match rest1 with
        | EmptyString => false
        | String e _ =>
            negb (Ascii.eqb e "u")
            && match backslash_char e with Some _ => false | None => true end
        end
      else (nat_of_ascii c <? 32)%nat
  end.

Definition is_nan (x : spec_float) : bool :=
  match x with
  | S754_nan => true
  | _ => false
  end.

(** [-x] *)
Definition f64_opp : spec_float -> spec_float := SFopp.

(** ** More connectors and indexes for the examples *)

(** An origin with a tab in it. *)
Definition tabbed_backend : connector :=
  {| origin := "https://example.org/a" +:+ String char_tab "b";
     tag := "tabbed";
     fetch_parameters := ["category"; "from_date"] |}.

(** A local repository on a Windows path, [C:\repos]. *)
Definition windows_backend : connector :=
  {| origin := "C:" +:+ String backslash "repos";
     tag := "local";
     fetch_parameters := ["category"; "from_date"] |}.

(** A connector whose [fetch] takes neither parameter. *)
Definition plain_backend : connector :=
  {| origin := "https://example.org/feed";
     tag := "feed";
     fetch_parameters := ["category"] |}.

(** A connector whose [fetch] takes both. *)
Definition dual_backend : connector :=
  {| origin := "https://example.org/api";
     tag := "api";
     fetch_parameters := ["category"; "from_date"; "offset"] |}.

(** An offset-based connector over a whole site: its origin is empty. *)
Definition whole_site_backend : connector :=
  {| origin := ""; tag := ""; fetch_parameters := ["category"; "offset"] |}.

(** An index whose baseline carries the UTC zone. *)
Definition aware_index : enrich_backend :=
  enriched "kitsune" (Some (utc (naive 2020 1 10 0 0 0)))
    None (Some (utc (naive 2020 1 5 0 0 0))) (Some 3400).

(** ** Tactics *)

Ltac by_computation := vm_compute; reflexivity.
Ltac decide_elem := refine (bool_decide_unpack _ _); vm_compute; exact I.


(** * Properties *)

Section Properties.

Variable GITHUB : string.
Variable parser_parse : string -> result datetime.

(** dateutil reads the literal of line 172 as the naive midnight it spells. *)
Hypothesis parse_epoch : parser_parse "1970-01-01" = Ok epoch_start.

(** *** Strings and the JSON decoder *)

Lemma string_app_nil (b : string) : "" +:+ b = b.
Proof. reflexivity. Qed.

Lemma string_app_cons (c : ascii) (a b : string) :
  String c a +:+ b = String c (a +:+ b).
Proof. reflexivity. Qed.

Lemma string_length_cons (c : ascii) (s : string) :
  String.length (String c s) = S (String.length s).
Proof. reflexivity. Qed.

Lemma string_length_app (a b : string) :
  String.length (a +:+ b) = (String.length a + String.length b)%nat.
Proof.
  induction a as [|c a IH]; [reflexivity|].
  rewrite string_app_cons, !string_length_cons. now rewrite IH.
Qed.

Lemma string_app_assoc (a b c : string) : (a +:+ b) +:+ c = a +:+ (b +:+ c).
Proof.
  induction a as [|x a IH]; [reflexivity|].
  rewrite !string_app_cons. now rewrite IH.
Qed.

Lemma take_char_hit (c : ascii) (s : string) : take_char c (String c s) = Some s.
Proof. cbn [take_char]. now rewrite Ascii.eqb_refl. Qed.

Lemma take_char_miss (c a : ascii) (s : string) :
  Ascii.eqb a c = false -> take_char c (String a s) = None.
Proof. intros H. cbn [take_char]. now rewrite H. Qed.

Lemma skip_ws_ws (c : ascii) (s : string) :
  is_ws c = true -> skip_ws (String c s) = skip_ws s.
Proof. intros H. cbn [skip_ws]. now rewrite H. Qed.

Lemma skip_ws_stop (c : ascii) (s : string) :
  is_ws c = false -> skip_ws (String c s) = String c s.
Proof. intros H. cbn [skip_ws]. now rewrite H. Qed.

(** Steps [skip_ws] over the white space a text starts with. *)
Ltac skip_spaces :=
  repeat (rewrite skip_ws_ws by reflexivity); rewrite skip_ws_stop by reflexivity.

(** A plain text is scanned up to its closing quote and returned as it is. *)
Lemma scanstring_fuel_plain (v rest : string) (fuel : nat) :
  json_plain v = true -> (String.length v < fuel)%nat ->
  scanstring_fuel fuel (v +:+ String dquote rest) = Ok (v, rest).
Proof.
  revert fuel. induction v as [|c v IH]; intros fuel Hp Hf.
  - destruct fuel; [simpl in Hf; lia|]. reflexivity.
  - destruct fuel; [simpl in Hf; lia|].
    cbn [json_plain] in Hp. apply andb_true_iff in Hp as [Hp Hv].
    apply andb_true_iff in Hp as [Hp Hc].
    apply andb_true_iff in Hp as [Hq Hb].
    apply negb_true_iff in Hq, Hb, Hc.
    rewrite string_app_cons.
    cbn [scanstring_fuel]. rewrite Hq, Hb, Hc.
    rewrite IH; [reflexivity|assumption|simpl in Hf; lia].
Qed.

Lemma scanstring_plain (v rest : string) :
  json_plain v = true -> scanstring (v +:+ String dquote rest) = Ok (v, rest).
Proof.
  intros Hp. unfold scanstring. apply scanstring_fuel_plain; [assumption|].
  rewrite string_length_app, string_length_cons. lia.
Qed.

Lemma scan_once_string (fuel : nat) (v rest : string) :
  json_plain v = true ->
  scan_once (S fuel) (String dquote (v +:+ String dquote rest)) = Ok (PStr v, rest).
Proof.
  intros Hv. cbn [scan_once]. rewrite take_char_hit.
  now rewrite scanstring_plain.
Qed.

Lemma scan_once_object (fuel : nat) (s s1 r : string) (d : gmap string pyval) :
  skip_ws s = String dquote s1 ->
  object_members fuel (String dquote s1) ∅ = Ok (d, r) ->
  scan_once (S fuel) (String "{" s) = Ok (PDict d, r).
Proof.
  intros Hs Hm. cbn [scan_once].
  rewrite (take_char_miss dquote "{") by reflexivity.
  rewrite take_char_hit, Hs.
  rewrite (take_char_miss "}" dquote) by reflexivity.
  now rewrite Hm.
Qed.

(** The last member of an object whose key is plain. *)
Lemma object_members_last (fuel : nat) (k r1 r2 r3 r4 : string) (v : pyval)
    (acc : gmap string pyval) :
  json_plain k = true ->
  skip_ws r1 = String ":" r2 ->
  scan_once fuel (skip_ws r2) = Ok (v, r3) ->
  skip_ws r3 = String "}" r4 ->
  object_members (S fuel) (String dquote (k +:+ String dquote r1)) acc
  = Ok (<[k := v]> acc, r4).
Proof.
  intros Hk H1 H2 H3. cbn [object_members]. rewrite take_char_hit.
  rewrite scanstring_plain by assumption.
  cbn [mbind result_bind]. rewrite H1, take_char_hit, H2.
  cbn [mbind result_bind]. now rewrite H3, take_char_hit.
Qed.

(** The term text of a plain field and value decodes to the nested
    dictionary [{"term": {field: value}}]. *)
Lemma json_loads_term_text (field value : string) :
  json_plain field = true -> json_plain value = true ->
  json_loads (term_text field value)
  = Ok (PDict {[ "term" := PDict {[ field := PStr value ]} ]}).
Proof.
  intros Hf Hv. unfold json_loads, term_text, q, nl.
  rewrite ?string_app_cons, ?string_app_nil, ?string_app_assoc.
  rewrite ?string_app_cons, ?string_app_nil, ?string_app_assoc.
  rewrite !string_length_cons.
  skip_spaces.
  erewrite scan_once_object; cycle 1.
  { skip_spaces. reflexivity. }
  { eapply (object_members_last _ "term"); [reflexivity | skip_spaces; reflexivity | | ].
    - skip_spaces. eapply scan_once_object.
      + skip_spaces. reflexivity.
      + eapply (object_members_last _ field); [assumption | skip_spaces; reflexivity | | ].
        * skip_spaces. apply scan_once_string. assumption.
        * skip_spaces. reflexivity.
    - skip_spaces. reflexivity. }
  cbn [mbind result_bind].
  repeat (rewrite skip_ws_ws by reflexivity). cbn [skip_ws].
  rewrite insert_empty. reflexivity.
Qed.

Lemma json_plain_app (a b : string) :
  json_plain a = true -> json_plain b = true -> json_plain (a +:+ b) = true.
Proof.
  intros Ha Hb. induction a as [|c a IH]; [assumption|].
  rewrite string_app_cons. cbn [json_plain] in *.
  apply andb_true_iff in Ha as [Hc Ha]. rewrite Hc, IH; [reflexivity | assumption].
Qed.

(** *** [get_repository_filter] *)

(** The flat shape never raises. *)
Lemma get_repository_filter_flat_total (pb : option connector) (name : string) :
  exists f, get_repository_filter GITHUB pb name false = Ok f.
Proof.
  unfold get_repository_filter. destruct pb as [pb|]; [|eauto].
  destruct (bool_decide (name ∈ _)); cbn [negb mbind result_bind];
    match goal with |- context [bool_decide ?P] => destruct (bool_decide P) end; eauto.
Qed.

(** C7: for a present connector whose selected value is no sentinel, the
    filter names the field ["tag"] with the connector's tag when the
    connector kind is one of meetup, nntp, stackexchange and jira, and the
    field ["origin"] with the connector's origin for every other kind. *)
Theorem get_repository_filter_field_value (pb : connector) (name : string) :
  (name ∈ ["meetup"; "nntp"; "stackexchange"; "jira"] ->
   tag pb ∉ [""; GITHUB +:+ "/"; "https://meetup.com/"] ->
   get_repository_filter GITHUB (Some pb) name false
   = Ok (PDict {[ "name" := PStr "tag"; "value" := PStr (tag pb) ]}))
  /\
  (name ∉ ["meetup"; "nntp"; "stackexchange"; "jira"] ->
   origin pb ∉ [""; GITHUB +:+ "/"; "https://meetup.com/"] ->
   get_repository_filter GITHUB (Some pb) name false
   = Ok (PDict {[ "name" := PStr "origin"; "value" := PStr (origin pb) ]})).
Proof.
  split; intros Hname Hvalue; unfold get_repository_filter.
  - rewrite (bool_decide_eq_true_2 _ Hname). cbn [negb mbind result_bind].
    now rewrite (bool_decide_eq_false_2 _ Hvalue).
  - rewrite (bool_decide_eq_false_2 _ Hname). cbn [negb mbind result_bind].
    now rewrite (bool_decide_eq_false_2 _ Hvalue).
Qed.

(** X1: the term shape of the same filter, [{"term": {field: value}}], for
    a value that a JSON string literal holds as it is. *)
Lemma get_repository_filter_term (pb : connector) (name : string) :
  let selected :=
    if bool_decide (name ∈ ["meetup"; "nntp"; "stackexchange"; "jira"])
    then ("tag", tag pb) else ("origin", origin pb) in
  json_plain (snd selected) = true ->
  snd selected ∉ [""; GITHUB +:+ "/"; "https://meetup.com/"] ->
  get_repository_filter GITHUB (Some pb) name true
  = Ok (PDict {[ "term" := PDict {[ fst selected := PStr (snd selected) ]} ]}).
Proof.
  unfold get_repository_filter.
  destruct (bool_decide (name ∈ _)); cbn [fst snd negb]; intros Hp Hv;
    (rewrite json_loads_term_text by (reflexivity || assumption));
    cbn [mbind result_bind]; now rewrite (bool_decide_eq_false_2 _ Hv).
Qed.

(** A value with a quote in it breaks the term text. *)
Example get_repository_filter_term_quote :
  get_repository_filter "https://github.com/"
    (Some {| origin := String dquote "x"; tag := "t"; fetch_parameters := [] |})
    "git" true
  = Raise JSONDecodeError.
Proof. vm_compute. reflexivity. Qed.

Lemma sentinel_plain (value : string) :
  value ∈ [""; GITHUB +:+ "/"; "https://meetup.com/"] ->
  (value = GITHUB +:+ "/" -> json_plain GITHUB = true) ->
  json_plain value = true.
Proof.
  intros Hv Hg. rewrite !elem_of_cons in Hv.
  destruct Hv as [-> | [Hv | [-> | Hv]]]; [reflexivity | | reflexivity | ].
  - rewrite Hv. apply json_plain_app; [auto | reflexivity].
  - now apply elem_of_nil in Hv.
Qed.

(** C8: the filter is empty when the connector is absent, and when the
    selected value is the empty string, [GITHUB + '/'] or
    ["https://meetup.com/"], in the flat shape and in the term shape (where
    the text built from [GITHUB + '/'] has to be one the decoder reads: the
    site URL holds nothing a JSON string escapes). *)
Theorem get_repository_filter_empty :
  (forall (name : string) (term : bool),
     get_repository_filter GITHUB None name term = Ok (PDict ∅))
  /\
  (forall (pb : connector) (name : string) (term : bool),
     let value :=
       if bool_decide (name ∈ ["meetup"; "nntp"; "stackexchange"; "jira"])
       then tag pb else origin pb in
     value ∈ [""; GITHUB +:+ "/"; "https://meetup.com/"] ->
     (term = true -> value = GITHUB +:+ "/" -> json_plain GITHUB = true) ->
     get_repository_filter GITHUB (Some pb) name term = Ok (PDict ∅)).
Proof.
  split; [reflexivity|].
  intros pb name term value Hv Hg. subst value. unfold get_repository_filter.
  destruct (bool_decide (name ∈ _)), term; cbn [negb mbind result_bind];
    try (rewrite json_loads_term_text
           by (reflexivity || (apply sentinel_plain; auto)));
    cbn [mbind result_bind]; now rewrite (bool_decide_eq_true_2 _ Hv).
Qed.

(** *** [get_last_enrich] *)

Lemma lookup_from_date_undeclared (cmd : backend_cmd) :
  "from_date" ∉ fetch_parameters (backend cmd) -> lookup_from_date cmd = Ok None.
Proof. intros H. unfold lookup_from_date. now rewrite (bool_decide_eq_false_2 _ H). Qed.

Lemma lookup_offset_undeclared (cmd : backend_cmd) :
  "offset" ∉ fetch_parameters (backend cmd) -> lookup_offset cmd = Ok None.
Proof. intros H. unfold lookup_offset. now rewrite (bool_decide_eq_false_2 _ H). Qed.

Lemma lookup_from_date_declared (cmd : backend_cmd) (d : datetime) :
  lookup_from_date cmd = Ok (Some d) -> "from_date" ∈ fetch_parameters (backend cmd).
Proof.
  unfold lookup_from_date. intros H.
  destruct (decide ("from_date" ∈ fetch_parameters (backend cmd))) as [Hin|Hout];
    [assumption|].
  now rewrite (bool_decide_eq_false_2 _ Hout) in H.
Qed.

Lemma lookup_offset_declared (cmd : backend_cmd) (n : Z) :
  lookup_offset cmd = Ok (Some n) -> "offset" ∈ fetch_parameters (backend cmd).
Proof.
  unfold lookup_offset. intros H.
  destruct (decide ("offset" ∈ fetch_parameters (backend cmd))) as [Hin|Hout];
    [assumption|].
  now rewrite (bool_decide_eq_false_2 _ Hout) in H.
Qed.

(** The resolver once the filter and the two parameters are known: with
    no [from_date] read, the literal of line 172 is never parsed. *)
Lemma get_last_enrich_read_none (cmd : backend_cmd) (eb : enrich_backend)
    (filter_ : pyval) (off : option Z) :
  get_repository_filter GITHUB (Some (backend cmd)) (get_connector_name eb) false
    = Ok filter_ ->
  lookup_from_date cmd = Ok None ->
  lookup_offset cmd = Ok off ->
  get_last_enrich GITHUB parser_parse (Some cmd) eb
  = match off with
    | Some n =>
        if negb (n =? 0) then Ok (WOffset n)
        else Ok (watermark_of_offset (get_last_offset_from_es eb (Some [filter_])))
    | None => baseline_branch eb filter_
    end.
Proof.
  intros Hf Hfd Hoff. unfold get_last_enrich, baseline_branch.
  rewrite Hf. cbn [mbind result_bind]. rewrite Hfd. cbn [mbind result_bind].
  rewrite Hoff. reflexivity.
Qed.

Lemma get_last_enrich_read (cmd : backend_cmd) (eb : enrich_backend)
    (filter_ : pyval) (fd : option datetime) (off : option Z) :
  get_repository_filter GITHUB (Some (backend cmd)) (get_connector_name eb) false
    = Ok filter_ ->
  lookup_from_date cmd = Ok fd ->
  lookup_offset cmd = Ok off ->
  get_last_enrich GITHUB parser_parse (Some cmd) eb
  = match fd, off with
    | Some d, _ =>
        if dt_ne (replace_tzinfo None d) epoch_start then Ok (WDate d)
        else baseline_branch eb filter_
    | None, Some n =>
        if negb (n =? 0) then Ok (WOffset n)
        else Ok (watermark_of_offset (get_last_offset_from_es eb (Some [filter_])))
    | None, None => baseline_branch eb filter_
    end.
Proof.
  intros Hf Hfd Hoff. destruct fd as [d|].
  - unfold get_last_enrich, baseline_branch.
    rewrite Hf. cbn [mbind result_bind]. rewrite Hfd. cbn [mbind result_bind].
    rewrite Hoff. cbn [mbind result_bind]. rewrite parse_epoch. reflexivity.
  - now apply get_last_enrich_read_none.
Qed.

Lemma naive_eta (b : datetime) :
  tzinfo b = None -> b = {| wall := wall b; tzinfo := None |}.
Proof. destruct b as [w tz]. cbn. now intros ->. Qed.

(** [get_min_last_enrich] on a naive baseline: the earlier wall clock. *)
Lemma get_min_last_enrich_naive (b f : datetime) :
  tzinfo b = None ->
  get_min_last_enrich (Some b) (Some f)
  = Ok (Some {| wall := Z.min (wall b) (wall f); tzinfo := None |}).
Proof.
  intros Hb. unfold get_min_last_enrich, py_min, dt_lt.
  cbn [replace_tzinfo tzinfo wall]. rewrite Hb. cbn [mbind result_bind].
  destruct (Z.ltb_spec (wall f) (wall b)) as [Hlt|Hge].
  - now rewrite Z.min_r by lia.
  - rewrite Z.min_l by lia. now rewrite <- naive_eta.
Qed.

Lemma baseline_branch_naive (eb : enrich_backend) (filter_ : pyval) (b : datetime) :
  eb_from_date eb = Some b -> tzinfo b = None ->
  baseline_branch eb filter_
  = Ok (WDate match get_last_update_from_es eb (Some [filter_]) with
              | Some f => {| wall := Z.min (wall b) (wall f); tzinfo := None |}
              | None => b
              end).
Proof.
  intros Hb Hn. unfold baseline_branch. rewrite Hb.
  destruct (get_last_update_from_es eb (Some [filter_])) as [f|]; [|reflexivity].
  now rewrite get_min_last_enrich_naive.
Qed.

(** C1, amended: when no explicit parameter applies (the [from_date] read
    is the sentinel, or [fetch] declares neither parameter) and the
    baseline is present and naive, the resolver returns the earlier of the
    baseline and the last update filtered to the repository, both read as
    naive wall clocks; the baseline itself when that query finds nothing. *)
Theorem get_last_enrich_baseline_min (eb : enrich_backend) (b : datetime) :
  eb_from_date eb = Some b ->
  tzinfo b = None ->
  forall (cmd : backend_cmd) (filter_ : pyval),
    get_repository_filter GITHUB (Some (backend cmd)) (get_connector_name eb) false
      = Ok filter_ ->
    let earlier :=
      match get_last_update_from_es eb (Some [filter_]) with
      | Some f => {| wall := Z.min (wall b) (wall f); tzinfo := None |}
      | None => b
      end in
    (forall (d : datetime) (off : option Z),
       "from_date" ∈ fetch_parameters (backend cmd) ->
       lookup_from_date cmd = Ok (Some d) ->
       lookup_offset cmd = Ok off ->
       dt_eq (replace_tzinfo None d) epoch_start = true ->
       get_last_enrich GITHUB parser_parse (Some cmd) eb = Ok (WDate earlier))
    /\
    ("from_date" ∉ fetch_parameters (backend cmd) ->
     "offset" ∉ fetch_parameters (backend cmd) ->
     get_last_enrich GITHUB parser_parse (Some cmd) eb = Ok (WDate earlier)).
Proof.
  intros Hb Hn cmd filter_ Hf earlier. split.
  - intros d off _ Hfd Hoff Heq.
    rewrite (get_last_enrich_read cmd eb filter_ (Some d) off) by assumption.
    unfold dt_ne. rewrite Heq. cbn [negb].
    now apply baseline_branch_naive.
  - intros Hnf Hno.
    rewrite (get_last_enrich_read cmd eb filter_ None None);
      auto using lookup_from_date_undeclared, lookup_offset_undeclared.
    now apply baseline_branch_naive.
Qed.

(** C2: an explicit [from_date], one that differs from the sentinel once
    its zone is dropped, is returned as it is, whatever the enrich backend
    holds and answers. *)
Theorem get_last_enrich_explicit_from_date (cmd : backend_cmd) (eb : enrich_backend)
    (d : datetime) (off : option Z) :
  "from_date" ∈ fetch_parameters (backend cmd) ->
  lookup_from_date cmd = Ok (Some d) ->
  lookup_offset cmd = Ok off ->
  dt_ne (replace_tzinfo None d) epoch_start = true ->
  get_last_enrich GITHUB parser_parse (Some cmd) eb = Ok (WDate d).
Proof.
  intros _ Hfd Hoff Hne.
  destruct (get_repository_filter_flat_total (Some (backend cmd)) (get_connector_name eb))
    as [filter_ Hf].
  rewrite (get_last_enrich_read cmd eb filter_ (Some d) off) by assumption.
  now rewrite Hne.
Qed.

(** C3: with no [from_date] read, an offset other than zero is returned
    as it is, and an offset of zero gives the last offset of the index
    filtered to the repository. *)
Theorem get_last_enrich_offset_resume (cmd : backend_cmd) (eb : enrich_backend)
    (n : Z) (filter_ : pyval) :
  "offset" ∈ fetch_parameters (backend cmd) ->
  lookup_from_date cmd = Ok None ->
  lookup_offset cmd = Ok (Some n) ->
  get_repository_filter GITHUB (Some (backend cmd)) (get_connector_name eb) false
    = Ok filter_ ->
  (n <> 0 -> get_last_enrich GITHUB parser_parse (Some cmd) eb = Ok (WOffset n))
  /\
  (n = 0 ->
   get_last_enrich GITHUB parser_parse (Some cmd) eb
   = Ok (watermark_of_offset (get_last_offset_from_es eb (Some [filter_])))).
Proof.
  intros _ Hfd Hoff Hf.
  rewrite (get_last_enrich_read_none cmd eb filter_ (Some n)) by assumption.
  split; intros Hn.
  - apply Z.eqb_neq in Hn. now rewrite Hn.
  - subst n. reflexivity.
Qed.

(** C4: with no command the resolver returns what
    [get_last_update_from_es()], called with no filter, answers. *)
Theorem get_last_enrich_no_descriptor (eb : enrich_backend) :
  get_last_enrich GITHUB parser_parse None eb
  = Ok (watermark_of_date (get_last_update_from_es eb None)).
Proof. reflexivity. Qed.

(** C5: with no baseline the resolver never raises on a command whose
    parameters can be read, and it returns [None] when no explicit
    parameter applies. *)
Theorem get_last_enrich_absent_data (cmd : backend_cmd) (eb : enrich_backend)
    (fd : option datetime) (off : option Z) :
  eb_from_date eb = None ->
  lookup_from_date cmd = Ok fd ->
  lookup_offset cmd = Ok off ->
  (exists w, get_last_enrich GITHUB parser_parse (Some cmd) eb = Ok w)
  /\
  (no_explicit_parameter fd off = true ->
   get_last_enrich GITHUB parser_parse (Some cmd) eb = Ok WNone).
Proof.
  intros Hb Hfd Hoff.
  destruct (get_repository_filter_flat_total (Some (backend cmd)) (get_connector_name eb))
    as [filter_ Hf].
  rewrite (get_last_enrich_read cmd eb filter_ fd off) by assumption.
  unfold baseline_branch, no_explicit_parameter, dt_ne. rewrite Hb.
  destruct fd as [d|], off as [n|]; split;
    try destruct (dt_eq _ _); try destruct (n =? 0);
    cbn [negb]; eauto; discriminate.
Qed.

Lemma baseline_branch_kind (eb : enrich_backend) (filter_ : pyval) (w : watermark) :
  baseline_branch eb filter_ = Ok w -> is_timestamp_or_null w = true.
Proof.
  unfold baseline_branch. destruct (eb_from_date eb); [|now intros [= <-]].
  destruct (get_min_last_enrich _ _) as [[m|]|e]; cbn [mbind result_bind];
    [now intros [= <-] | now intros [= <-] | discriminate].
Qed.

(** C6, amended: the kind of the watermark follows what was read from the
    command.  It is a timestamp or [None] whenever [fetch] does not declare
    [offset]; it is an offset or [None] when no [from_date] was read and
    the offset read is not [None], and then the resolver does return; and
    with neither read ([offset] being [None]) it is a timestamp or [None]
    again, also for a connector whose [fetch] declares [offset] only. *)
Theorem get_last_enrich_watermark_kind (cmd : backend_cmd) (eb : enrich_backend) :
  (forall w,
     "offset" ∉ fetch_parameters (backend cmd) ->
     get_last_enrich GITHUB parser_parse (Some cmd) eb = Ok w ->
     is_timestamp_or_null w = true)
  /\
  (forall n,
     lookup_from_date cmd = Ok None ->
     lookup_offset cmd = Ok (Some n) ->
     exists w, get_last_enrich GITHUB parser_parse (Some cmd) eb = Ok w
               /\ is_offset_or_null w = true)
  /\
  (forall w,
     lookup_from_date cmd = Ok None ->
     lookup_offset cmd = Ok None ->
     get_last_enrich GITHUB parser_parse (Some cmd) eb = Ok w ->
     is_timestamp_or_null w = true).
Proof.
  destruct (get_repository_filter_flat_total (Some (backend cmd)) (get_connector_name eb))
    as [filter_ Hf].
  split; [|split].
  - intros w Hno Hw.
    destruct (lookup_from_date cmd) as [fd|e] eqn:Hfd.
    + rewrite (get_last_enrich_read cmd eb filter_ fd None) in Hw;
        auto using lookup_offset_undeclared.
      destruct fd as [d|]; [|now apply baseline_branch_kind in Hw].
      destruct (dt_ne _ _); [now injection Hw as <- | now apply baseline_branch_kind in Hw].
    + unfold get_last_enrich in Hw. rewrite Hf in Hw. cbn [mbind result_bind] in Hw.
      rewrite Hfd in Hw. discriminate.
  - intros n Hfd Hoff.
    rewrite (get_last_enrich_read cmd eb filter_ None (Some n)) by assumption.
    destruct (negb (n =? 0)); [now eexists|].
    eexists; split; [reflexivity|].
    now destruct (get_last_offset_from_es eb (Some [filter_])).
  - intros w Hfd Hoff Hw.
    rewrite (get_last_enrich_read cmd eb filter_ None None) in Hw by assumption.
    now apply baseline_branch_kind in Hw.
Qed.

(** C10: [get_min_last_enrich] returns the baseline as it is when the
    filtered query found nothing, so that with a baseline present and no
    explicit parameter the resolver never returns [None]; it returns the
    baseline when the filtered query finds nothing. *)
Theorem get_min_last_enrich_without_filtered :
  (forall b : datetime, get_min_last_enrich (Some b) None = Ok (Some b))
  /\
  (forall (cmd : backend_cmd) (eb : enrich_backend) (b : datetime)
          (fd : option datetime) (off : option Z) (filter_ : pyval),
     eb_from_date eb = Some b ->
     get_repository_filter GITHUB (Some (backend cmd)) (get_connector_name eb) false
       = Ok filter_ ->
     lookup_from_date cmd = Ok fd ->
     lookup_offset cmd = Ok off ->
     no_explicit_parameter fd off = true ->
     get_last_enrich GITHUB parser_parse (Some cmd) eb <> Ok WNone
     /\
     (get_last_update_from_es eb (Some [filter_]) = None ->
      get_last_enrich GITHUB parser_parse (Some cmd) eb = Ok (WDate b))).
Proof.
  split; [reflexivity|].
  intros cmd eb b fd off filter_ Hb Hf Hfd Hoff Hnone.
  rewrite (get_last_enrich_read cmd eb filter_ fd off) by assumption.
  assert (Hbranch :
    match fd, off with
    | Some d, _ =>
        if dt_ne (replace_tzinfo None d) epoch_start then Ok (WDate d)
        else baseline_branch eb filter_
    | None, Some n =>
        if negb (n =? 0) then Ok (WOffset n)
        else Ok (watermark_of_offset (get_last_offset_from_es eb (Some [filter_])))
    | None, None => baseline_branch eb filter_
    end = baseline_branch eb filter_).
  { unfold no_explicit_parameter in Hnone. unfold dt_ne.
    destruct fd as [d|], off as [n|]; try rewrite Hnone; try reflexivity; discriminate. }
  rewrite Hbranch. unfold baseline_branch, get_min_last_enrich. rewrite Hb.
  destruct (get_last_update_from_es eb (Some [filter_])) as [f|].
  - split; [|discriminate].
    destruct (py_min b (replace_tzinfo None f)); cbn [mbind result_bind]; discriminate.
  - split; [discriminate | reflexivity].
Qed.

(** *** [get_time_diff_days] *)

Lemma round_half_even_div_nearest (n d : Z) :
  0 < d -> 2 * Z.abs (n - round_half_even_div n d * d) <= d.
Proof.
  intros Hd. unfold round_half_even_div.
  pose proof (Z.div_mod n d ltac:(lia)) as Hdm.
  pose proof (Z.mod_pos_bound n d Hd) as Hr.
  destruct (Z.compare_spec (2 * (n mod d)) d) as [He|Hl|Hg];
    [destruct (Z.even (n / d))| |]; nia.
Qed.

Lemma float_of_format_2f_rounded (x : spec_float) :
  rounded_to_hundredths x (float_of_format_2f x).
Proof.
  unfold rounded_to_hundredths, float_of_format_2f, format_2f, nearest_hundredths.
  destruct x as [s|s| |s m e]; try reflexivity.
  - exists 0. split; reflexivity.
  - destruct e as [|k|k].
    + eexists; split; reflexivity.
    + eexists; split; reflexivity.
    + eexists; split; [|reflexivity].
      apply round_half_even_div_nearest. lia.
Qed.

(** C9, amended: the result is [None] when either argument is [None]; a
    string counts as the timestamp [parser.parse] reads from it with its
    zone dropped (the fields are kept, nothing is converted), so it gives
    what that naive timestamp gives, while a typed timestamp is used as it
    is; and two timestamps that can be subtracted give the quotient of
    their difference by a day, rounded to two decimals. *)
Theorem get_time_diff_days_spec :
  (forall x : date_arg,
     get_time_diff_days parser_parse DNone x = Ok None
     /\ get_time_diff_days parser_parse x DNone = Ok None)
  /\
  (forall (s : string) (d : datetime) (x : date_arg),
     parser_parse s = Ok d ->
     get_time_diff_days parser_parse (DStr s) x
     = get_time_diff_days parser_parse (DDatetime (replace_tzinfo None d)) x
     /\
     get_time_diff_days parser_parse x (DStr s)
     = get_time_diff_days parser_parse x (DDatetime (replace_tzinfo None d)))
  /\
  (forall (start end_ : datetime) (td : Z),
     dt_sub end_ start = Ok td ->
     exists r,
       get_time_diff_days parser_parse (DDatetime start) (DDatetime end_) = Ok (Some r)
       /\ rounded_to_hundredths
            (f64_div (total_seconds td) (f64_of_Z (60 * 60 * 24))) r).
Proof.
  split; [|split].
  - intros x. split; [reflexivity | now destruct x].
  - intros s d x Hs. unfold get_time_diff_days, as_datetime. split.
    + destruct x; [reflexivity | |]; rewrite Hs; reflexivity.
    + destruct x as [|e|t]; [reflexivity | |].
      * cbn [mbind result_bind]. rewrite Hs. reflexivity.
      * destruct (parser_parse t); cbn [mbind result_bind]; [|reflexivity].
        rewrite Hs. reflexivity.
  - intros start end_ td Htd. unfold get_time_diff_days, as_datetime.
    cbn [mbind result_bind]. rewrite Htd. cbn [mbind result_bind].
    eexists; split; [reflexivity|]. apply float_of_format_2f_rounded.
Qed.

(** ** Further properties of the helpers *)

(** *** The term shape of [get_repository_filter] *)

Lemma scan_once_string_as (fuel : nat) (s : string) (r : result (string * string)) :
  scanstring s = r ->
  scan_once (S fuel) (String dquote s)
  = match r with
    | Ok (str, rest) => Ok (PStr str, rest)
    | Raise e => Raise e
    end.
Proof.
  intros <-. cbn [scan_once]. rewrite take_char_hit.
  destruct (scanstring s) as [[str rest]|e]; reflexivity.
Qed.

Lemma scan_once_object_raises (fuel : nat) (s s1 : string) (e : exn) :
  skip_ws s = String dquote s1 ->
  object_members fuel (String dquote s1) ∅ = Raise e ->
  scan_once (S fuel) (String "{" s) = Raise e.
Proof.
  intros Hs Hm. cbn [scan_once].
  rewrite (take_char_miss dquote "{") by reflexivity.
  rewrite take_char_hit, Hs.
  rewrite (take_char_miss "}" dquote) by reflexivity.
  now rewrite Hm.
Qed.

Lemma object_members_value_raises (fuel : nat) (k r1 r2 : string) (e : exn)
    (acc : gmap string pyval) :
  json_plain k = true ->
  skip_ws r1 = String ":" r2 ->
  scan_once fuel (skip_ws r2) = Raise e ->
  object_members (S fuel) (String dquote (k +:+ String dquote r1)) acc = Raise e.
Proof.
  intros Hk H1 H2. cbn [object_members]. rewrite take_char_hit.
  rewrite scanstring_plain by assumption.
  cbn [mbind result_bind]. now rewrite H1, take_char_hit, H2.
Qed.

(** What [json.loads] makes of the term text follows what [scanstring]
    makes of the value: its decoded text, or its error. *)
Lemma json_loads_term_text_as (field value : string) :
  json_plain field = true ->
  (forall decoded,
     (forall tail, scanstring (value +:+ String dquote tail) = Ok (decoded, tail)) ->
     json_loads (term_text field value)
     = Ok (PDict {[ "term" := PDict {[ field := PStr decoded ]} ]}))
  /\
  (forall e,
     (forall tail, scanstring (value +:+ String dquote tail) = Raise e) ->
     json_loads (term_text field value) = Raise e).
Proof.
  intros Hf. split.
  - intros decoded Hv. unfold json_loads, term_text, q, nl.
    rewrite ?string_app_cons, ?string_app_nil, ?string_app_assoc.
    rewrite ?string_app_cons, ?string_app_nil, ?string_app_assoc.
    rewrite !string_length_cons.
    skip_spaces.
    erewrite scan_once_object; cycle 1.
    { skip_spaces. reflexivity. }
    { eapply (object_members_last _ "term"); [reflexivity | skip_spaces; reflexivity | | ].
      - skip_spaces. eapply scan_once_object.
        + skip_spaces. reflexivity.
        + eapply (object_members_last _ field); [assumption | skip_spaces; reflexivity | | ].
          * skip_spaces. erewrite scan_once_string_as; [|apply Hv]. reflexivity.
          * skip_spaces. reflexivity.
      - skip_spaces. reflexivity. }
    cbn [mbind result_bind].
    repeat (rewrite skip_ws_ws by reflexivity). cbn [skip_ws].
    rewrite insert_empty. reflexivity.
  - intros e Hv. unfold json_loads, term_text, q, nl.
    rewrite ?string_app_cons, ?string_app_nil, ?string_app_assoc.
    rewrite ?string_app_cons, ?string_app_nil, ?string_app_assoc.
    rewrite !string_length_cons.
    skip_spaces.
    erewrite scan_once_object_raises; [reflexivity | skip_spaces; reflexivity | ].
    eapply (object_members_value_raises _ "term"); [reflexivity | skip_spaces; reflexivity | ].
    skip_spaces. eapply scan_once_object_raises; [skip_spaces; reflexivity | ].
    eapply (object_members_value_raises _ field); [assumption | skip_spaces; reflexivity | ].
    skip_spaces. erewrite scan_once_string_as; [|apply Hv]. reflexivity.
Qed.

(** [scanstring] on a plain prefix hands over to what follows it. *)
Lemma scanstring_fuel_prefix (p s : string) (fuel : nat) :
  json_plain p = true ->
  scanstring_fuel (String.length p + fuel) (p +:+ s)
  = '(t, r) ← scanstring_fuel fuel s; Ok (p +:+ t, r).
Proof.
  intros Hp. induction p as [|c p IH].
  - rewrite string_app_nil. cbn [String.length Nat.add].
    destruct (scanstring_fuel fuel s) as [[t r]|e]; reflexivity.
  - cbn [json_plain] in Hp. apply andb_true_iff in Hp as [Hp Hv].
    apply andb_true_iff in Hp as [Hp Hc].
    apply andb_true_iff in Hp as [Hq Hb].
    apply negb_true_iff in Hq, Hb, Hc.
    rewrite string_app_cons, string_length_cons. cbn [Nat.add scanstring_fuel].
    rewrite Hq, Hb, Hc, IH by assumption.
    destruct (scanstring_fuel fuel s) as [[t r]|e]; reflexivity.
Qed.

Lemma scanstring_fuel_breaks (rest tail : string) (fuel : nat) :
  breaks_json rest = true ->
  scanstring_fuel (S fuel) (rest +:+ tail) = Raise JSONDecodeError.
Proof.
  intros Hb.
  destruct rest as [|c rest1]; [discriminate|].
  rewrite string_app_cons. cbn [scanstring_fuel breaks_json] in *.
  destruct (Ascii.eqb c dquote); [discriminate|].
  destruct (Ascii.eqb c backslash).
  - destruct rest1 as [|e rest2]; [discriminate|].
    rewrite string_app_cons.
    apply andb_true_iff in Hb as [Hu He]. apply negb_true_iff in Hu. rewrite Hu.
    now destruct (backslash_char e).
  - now rewrite Hb.
Qed.

Lemma scanstring_breaks (p rest tail : string) :
  json_plain p = true -> breaks_json rest = true ->
  scanstring ((p +:+ rest) +:+ tail) = Raise JSONDecodeError.
Proof.
  intros Hp Hb. unfold scanstring.
  rewrite string_app_assoc, string_length_app.
  rewrite scanstring_fuel_prefix by assumption.
  destruct rest as [|c rest1]; [discriminate|].
  rewrite string_app_cons, string_length_cons, <- string_app_cons.
  now rewrite scanstring_fuel_breaks.
Qed.

(** X2: in the term shape a value that holds, after a plain start, a
    control character or a backslash that starts no JSON escape makes the
    builder raise [JSONDecodeError], whatever follows: the text is decoded
    before the sentinels are looked at. *)
Theorem get_repository_filter_term_raises (pb : connector) (name p rest : string) :
  (if bool_decide (name ∈ ["meetup"; "nntp"; "stackexchange"; "jira"])
   then tag pb else origin pb) = p +:+ rest ->
  json_plain p = true ->
  breaks_json rest = true ->
  get_repository_filter GITHUB (Some pb) name true = Raise JSONDecodeError.
Proof.
  intros Hv Hp Hb. unfold get_repository_filter.
  destruct (bool_decide (name ∈ _)); cbn [negb]; rewrite Hv.
  - rewrite (proj2 (json_loads_term_text_as "tag" (p +:+ rest) eq_refl) JSONDecodeError);
      [reflexivity | intros tail; now apply scanstring_breaks].
  - rewrite (proj2 (json_loads_term_text_as "origin" (p +:+ rest) eq_refl) JSONDecodeError);
      [reflexivity | intros tail; now apply scanstring_breaks].
Qed.

Lemma backslash_char_not_u (e ch : ascii) :
  backslash_char e = Some ch -> Ascii.eqb e "u" = false.
Proof.
  intros H. destruct (Ascii.eqb_spec e "u") as [->|]; [discriminate | reflexivity].
Qed.

Lemma scanstring_fuel_escape (fuel : nat) (e ch : ascii) (rest : string) :
  backslash_char e = Some ch ->
  scanstring_fuel (S fuel) (String backslash (String e rest))
  = '(t, r) ← scanstring_fuel fuel rest; Ok (String ch t, r).
Proof.
  intros He. cbn [scanstring_fuel].
  change (Ascii.eqb backslash dquote) with false.
  change (Ascii.eqb backslash backslash) with true. cbv iota.
  now rewrite (backslash_char_not_u e ch He), He.
Qed.

Lemma scanstring_escape (p p2 tail : string) (e ch : ascii) :
  json_plain p = true -> json_plain p2 = true ->
  backslash_char e = Some ch ->
  scanstring ((p +:+ String backslash (String e p2)) +:+ String dquote tail)
  = Ok (p +:+ String ch p2, tail).
Proof.
  intros Hp Hp2 He. unfold scanstring.
  rewrite string_app_assoc, string_length_app.
  rewrite scanstring_fuel_prefix by assumption.
  rewrite !string_app_cons, string_length_cons.
  rewrite (scanstring_fuel_escape _ e ch) by assumption.
  rewrite scanstring_fuel_plain; [reflexivity | assumption | ].
  rewrite string_length_cons, string_length_app, string_length_cons. lia.
Qed.

(** X3: in the term shape a backslash escape in the value is decoded: the
    filter holds the value with the escaped character in place of the two
    characters that spell it, not the value of the connector. *)
Theorem get_repository_filter_term_unescapes (pb : connector)
    (name p p2 : string) (e ch : ascii) :
  let selected :=
    if bool_decide (name ∈ ["meetup"; "nntp"; "stackexchange"; "jira"])
    then ("tag", tag pb) else ("origin", origin pb) in
  snd selected = p +:+ String backslash (String e p2) ->
  json_plain p = true -> json_plain p2 = true ->
  backslash_char e = Some ch ->
  snd selected ∉ [""; GITHUB +:+ "/"; "https://meetup.com/"] ->
  get_repository_filter GITHUB (Some pb) name true
  = Ok (PDict {[ "term" := PDict {[ fst selected := PStr (p +:+ String ch p2) ]} ]})
  /\ p +:+ String ch p2 <> snd selected.
Proof.
  intros selected Hv Hp Hp2 He Hs. split.
  - unfold get_repository_filter. subst selected.
    destruct (bool_decide (name ∈ _)); cbn [fst snd negb] in *; rewrite Hv in *.
    + rewrite (proj1 (json_loads_term_text_as "tag" _ eq_refl) (p +:+ String ch p2))
        by (intros tail; now apply scanstring_escape).
      cbn [mbind result_bind]. now rewrite (bool_decide_eq_false_2 _ Hs).
    + rewrite (proj1 (json_loads_term_text_as "origin" _ eq_refl) (p +:+ String ch p2))
        by (intros tail; now apply scanstring_escape).
      cbn [mbind result_bind]. now rewrite (bool_decide_eq_false_2 _ Hs).
  - rewrite Hv. intros Heq. apply (f_equal String.length) in Heq.
    rewrite !string_length_app, !string_length_cons in Heq. lia.
Qed.

(** *** [get_min_last_enrich] *)

(** X4: a baseline that carries a zone cannot be compared with a filtered
    date, whose zone is dropped: [get_min_last_enrich] raises [TypeError]
    whatever the two dates are; so does a missing baseline. *)
Theorem get_min_last_enrich_raises (b : option datetime) (f : datetime) :
  (forall d, b = Some d -> tzinfo d <> None) ->
  get_min_last_enrich b (Some f) = Raise TypeError.
Proof.
  intros Hb. unfold get_min_last_enrich. destruct b as [d|]; [|reflexivity].
  unfold py_min, dt_lt. cbn [replace_tzinfo tzinfo].
  destruct (tzinfo d) eqn:Hd; [reflexivity|].
  now destruct (Hb d eq_refl).
Qed.

(** X5: on a naive baseline [get_min_last_enrich] returns a naive date
    that is no later than the baseline and no later than the filtered
    date, is one of the two, and is the baseline on a tie; the zone of the
    filtered date plays no part. *)
Theorem get_min_last_enrich_lower_bound (b f : datetime) :
  tzinfo b = None ->
  exists m,
    get_min_last_enrich (Some b) (Some f) = Ok (Some m)
    /\ tzinfo m = None
    /\ wall m <= wall b /\ wall m <= wall f
    /\ (m = b \/ m = replace_tzinfo None f)
    /\ (wall b <= wall f -> m = b)
    /\ (forall tz, get_min_last_enrich (Some b) (Some (replace_tzinfo tz f)) = Ok (Some m)).
Proof.
  intros Hb. rewrite get_min_last_enrich_naive by assumption.
  eexists; split; [reflexivity|]. cbn [tzinfo wall].
  repeat split; try lia.
  - destruct (Z.le_gt_cases (wall b) (wall f)) as [Hle|Hgt].
    + left. rewrite Z.min_l by lia. now rewrite <- naive_eta.
    + right. rewrite Z.min_r by lia. reflexivity.
  - intros Hle. rewrite Z.min_l by lia. now rewrite <- naive_eta.
  - intros tz. now rewrite get_min_last_enrich_naive.
Qed.

(** *** [get_last_enrich]: how the command is read *)

(** X6: the two layouts of a command give the same watermark: the
    parameters are taken from the command itself when they are there,
    whatever its [parsed_args] holds, and from [parsed_args] otherwise. *)
Theorem get_last_enrich_layouts (b : connector) (fd : option datetime)
    (off : option Z) (pa : attr parsed_args) (eb : enrich_backend) :
  get_last_enrich GITHUB parser_parse
    (Some {| backend := b; cmd_from_date := Attr fd; cmd_offset := Attr off;
             cmd_parsed_args := pa |}) eb
  = get_last_enrich GITHUB parser_parse
      (Some {| backend := b; cmd_from_date := NoAttr; cmd_offset := NoAttr;
               cmd_parsed_args := Attr {| pa_from_date := Attr fd;
                                          pa_offset := Attr off |} |}) eb.
Proof.
  unfold get_last_enrich, lookup_from_date, lookup_offset. cbn [backend].
  destruct (get_repository_filter _ _ _ _); [|reflexivity]. cbn [mbind result_bind].
  destruct (bool_decide ("from_date" ∈ _)), (bool_decide ("offset" ∈ _)); reflexivity.
Qed.

Lemma lookup_from_date_unreadable (cmd : backend_cmd) :
  "from_date" ∈ fetch_parameters (backend cmd) ->
  cmd_from_date cmd = NoAttr ->
  (forall pa, cmd_parsed_args cmd = Attr pa -> pa_from_date pa = NoAttr) ->
  lookup_from_date cmd = Raise AttributeError.
Proof.
  intros Hin Hd Hpa. unfold lookup_from_date.
  rewrite (bool_decide_eq_true_2 _ Hin), Hd. cbn [getattr try_except_AttributeError].
  destruct (cmd_parsed_args cmd) as [|pa]; [reflexivity|].
  cbn [getattr mbind result_bind]. now rewrite (Hpa pa eq_refl).
Qed.

Lemma lookup_offset_unreadable (cmd : backend_cmd) :
  "offset" ∈ fetch_parameters (backend cmd) ->
  cmd_offset cmd = NoAttr ->
  (forall pa, cmd_parsed_args cmd = Attr pa -> pa_offset pa = NoAttr) ->
  lookup_offset cmd = Raise AttributeError.
Proof.
  intros Hin Hd Hpa. unfold lookup_offset.
  rewrite (bool_decide_eq_true_2 _ Hin), Hd. cbn [getattr try_except_AttributeError].
  destruct (cmd_parsed_args cmd) as [|pa]; [reflexivity|].
  cbn [getattr mbind result_bind]. now rewrite (Hpa pa eq_refl).
Qed.

(** X7: a parameter that [fetch] declares and that neither the command
    nor its [parsed_args] holds makes the resolver raise
    [AttributeError]; for [offset] this is so even when an explicit
    [from_date] was read, the offset being read before the branches. *)
Theorem get_last_enrich_unreadable (cmd : backend_cmd) (eb : enrich_backend) :
  ("from_date" ∈ fetch_parameters (backend cmd) ->
   cmd_from_date cmd = NoAttr ->
   (forall pa, cmd_parsed_args cmd = Attr pa -> pa_from_date pa = NoAttr) ->
   get_last_enrich GITHUB parser_parse (Some cmd) eb = Raise AttributeError)
  /\
  ("offset" ∈ fetch_parameters (backend cmd) ->
   cmd_offset cmd = NoAttr ->
   (forall pa, cmd_parsed_args cmd = Attr pa -> pa_offset pa = NoAttr) ->
   forall fd, lookup_from_date cmd = Ok fd ->
   get_last_enrich GITHUB parser_parse (Some cmd) eb = Raise AttributeError).
Proof.
  destruct (get_repository_filter_flat_total (Some (backend cmd)) (get_connector_name eb))
    as [filter_ Hf].
  split.
  - intros Hin Hd Hpa. unfold get_last_enrich. rewrite Hf. cbn [mbind result_bind].
    now rewrite lookup_from_date_unreadable.
  - intros Hin Hd Hpa fd Hfd. unfold get_last_enrich. rewrite Hf. cbn [mbind result_bind].
    rewrite Hfd. cbn [mbind result_bind]. now rewrite lookup_offset_unreadable.
Qed.

(** X8: what [fetch] does not declare is never read: when it declares
    neither parameter, two commands on the same connector give the same
    watermark, whatever attributes they hold or lack. *)
Theorem get_last_enrich_undeclared (cmd cmd' : backend_cmd) (eb : enrich_backend) :
  backend cmd' = backend cmd ->
  "from_date" ∉ fetch_parameters (backend cmd) ->
  "offset" ∉ fetch_parameters (backend cmd) ->
  get_last_enrich GITHUB parser_parse (Some cmd') eb
  = get_last_enrich GITHUB parser_parse (Some cmd) eb.
Proof.
  intros Hb Hnf Hno. unfold get_last_enrich.
  rewrite (lookup_from_date_undeclared cmd), (lookup_offset_undeclared cmd) by assumption.
  rewrite (lookup_from_date_undeclared cmd'), (lookup_offset_undeclared cmd')
    by (rewrite Hb; assumption).
  now rewrite Hb.
Qed.

(** X9: once a [from_date] is read, the sentinel included, the offset
    plays no part: two commands on the same connector that read the same
    [from_date] give the same watermark whatever offsets they read, and
    that watermark is never an offset. *)
Theorem get_last_enrich_from_date_first (cmd cmd' : backend_cmd) (eb : enrich_backend)
    (d : datetime) (off off' : option Z) :
  backend cmd' = backend cmd ->
  lookup_from_date cmd = Ok (Some d) -> lookup_from_date cmd' = Ok (Some d) ->
  lookup_offset cmd = Ok off -> lookup_offset cmd' = Ok off' ->
  get_last_enrich GITHUB parser_parse (Some cmd') eb
  = get_last_enrich GITHUB parser_parse (Some cmd) eb
  /\ forall w, get_last_enrich GITHUB parser_parse (Some cmd) eb = Ok w ->
               is_timestamp_or_null w = true.
Proof.
  intros Hb Hfd Hfd' Hoff Hoff'.
  destruct (get_repository_filter_flat_total (Some (backend cmd)) (get_connector_name eb))
    as [filter_ Hf].
  rewrite (get_last_enrich_read cmd eb filter_ (Some d) off) by assumption.
  rewrite (get_last_enrich_read cmd' eb filter_ (Some d) off')
    by (rewrite ?Hb; assumption).
  split; [reflexivity|].
  intros w Hw. destruct (dt_ne _ _); [now injection Hw as <-|].
  now apply baseline_branch_kind in Hw.
Qed.

(** X10: with no explicit parameter, a baseline that carries a zone and a
    filtered query that finds a date make the resolver raise [TypeError]. *)
Theorem get_last_enrich_aware_baseline (cmd : backend_cmd) (eb : enrich_backend)
    (b f : datetime) (fd : option datetime) (off : option Z) (filter_ : pyval) :
  eb_from_date eb = Some b ->
  tzinfo b <> None ->
  get_repository_filter GITHUB (Some (backend cmd)) (get_connector_name eb) false
    = Ok filter_ ->
  get_last_update_from_es eb (Some [filter_]) = Some f ->
  lookup_from_date cmd = Ok fd ->
  lookup_offset cmd = Ok off ->
  no_explicit_parameter fd off = true ->
  get_last_enrich GITHUB parser_parse (Some cmd) eb = Raise TypeError.
Proof.
  intros Hb Hz Hf Hq Hfd Hoff Hnone.
  rewrite (get_last_enrich_read cmd eb filter_ fd off) by assumption.
  assert (Hbranch : baseline_branch eb filter_ = Raise TypeError).
  { unfold baseline_branch, get_min_last_enrich, py_min, dt_lt.
    rewrite Hb, Hq. cbn [replace_tzinfo tzinfo].
    destruct (tzinfo b); [reflexivity | contradiction]. }
  unfold no_explicit_parameter in Hnone. unfold dt_ne.
  destruct fd as [d|], off as [n|]; try rewrite Hnone; cbn [negb];
    try assumption; discriminate.
Qed.

(** X11: for a connector whose selected value is a sentinel the filtered
    queries are still asked with a filter list, holding the one empty
    dictionary: this is what an offset of zero asks the last offset with. *)
Theorem get_last_enrich_sentinel_filter (cmd : backend_cmd) (eb : enrich_backend) :
  (if bool_decide (get_connector_name eb ∈ ["meetup"; "nntp"; "stackexchange"; "jira"])
   then tag (backend cmd) else origin (backend cmd))
    ∈ [""; GITHUB +:+ "/"; "https://meetup.com/"] ->
  lookup_from_date cmd = Ok None ->
  lookup_offset cmd = Ok (Some 0) ->
  get_last_enrich GITHUB parser_parse (Some cmd) eb
  = Ok (watermark_of_offset (get_last_offset_from_es eb (Some [PDict ∅]))).
Proof.
  intros Hs Hfd Hoff.
  rewrite (get_last_enrich_read_none cmd eb (PDict ∅) (Some 0)); [reflexivity | | auto..].
  unfold get_repository_filter.
  destruct (bool_decide (get_connector_name eb ∈ _)); cbn [negb mbind result_bind];
    now rewrite (bool_decide_eq_true_2 _ Hs).
Qed.

(** *** [unixtime_to_datetime] *)

Lemma unix_epoch_wall : wall (naive 1970 1 1 0 0 0) = 62135596800 * US_PER_SECOND.
Proof. vm_compute. reflexivity. Qed.

Lemma max_wall_seconds : MAX_WALL = 315537897600 * US_PER_SECOND.
Proof. vm_compute. reflexivity. Qed.

(** X12: [unixtime_to_datetime] converts exactly the Unix times from
    -62135596800 (the first second of year 1) to 253402300799 (the last
    second of year 9999) and raises on every other one. *)
Theorem unixtime_to_datetime_range (ut : Z) :
  unixtime_to_datetime ut = None <-> ut < -62135596800 \/ 253402300799 < ut.
Proof.
  unfold unixtime_to_datetime, in_datetime_range.
  rewrite unix_epoch_wall, max_wall_seconds. unfold US_PER_SECOND.
  destruct (Z.leb_spec 0 (62135596800 * 1000000 + ut * 1000000)) as [Hlo|Hlo];
    destruct (Z.ltb_spec (62135596800 * 1000000 + ut * 1000000)
                (315537897600 * 1000000)) as [Hhi|Hhi];
    cbn [andb]; split; try discriminate; try lia; intros _; reflexivity.
Qed.




(** *** [get_diff_current_date] *)

(** X15: the date [get_diff_current_date] returns carries the zone of the
    clock; taking it from the clock gives back the days, hours and
    minutes asked for; and it is never after the clock when none of the
    three is negative. *)
Theorem get_diff_current_date_back (now r : datetime) (days hours minutes : Z) :
  get_diff_current_date now days hours minutes = Some r ->
  tzinfo r = tzinfo now
  /\ dt_sub now r = Ok (((days * 24 + hours) * 60 + minutes) * 60 * US_PER_SECOND)
  /\ (0 <= days -> 0 <= hours -> 0 <= minutes -> dt_lt now r = Ok false).
Proof.
  unfold get_diff_current_date, timedelta. intros H.
  destruct (_ && _); [|discriminate]. cbn [mbind option_bind] in H.
  destruct (in_datetime_range _); [|discriminate]. injection H as <-.
  unfold dt_sub, dt_lt, US_PER_SECOND. cbn [tzinfo wall].
  split; [reflexivity|]. destruct (tzinfo now) as [o|]; split.
  - f_equal. lia.
  - intros Hd Hh Hm. f_equal. apply Z.ltb_ge. nia.
  - f_equal. lia.
  - intros Hd Hh Hm. f_equal. apply Z.ltb_ge. nia.
Qed.

(** X16: only the total of the three arguments counts: days and hours
    can be given as minutes; and with all three zero (the defaults) the
    result is the clock itself. *)
Theorem get_diff_current_date_total (now : datetime) (days hours minutes : Z) :
  get_diff_current_date now days hours minutes
  = get_diff_current_date now 0 0 (days * 1440 + hours * 60 + minutes)
  /\ (in_datetime_range (wall now) = true -> get_diff_current_date now 0 0 0 = Some now).
Proof.
  split.
  - unfold get_diff_current_date, timedelta.
    replace (((0 * 24 + 0) * 60 + (days * 1440 + hours * 60 + minutes)) * 60 * US_PER_SECOND)
      with (((days * 24 + hours) * 60 + minutes) * 60 * US_PER_SECOND) by ring.
    reflexivity.
  - intros Hr. unfold get_diff_current_date.
    change (timedelta 0 0 0) with (Some 0). cbn [mbind option_bind].
    rewrite Z.sub_0_r, Hr. now destruct now.
Qed.

(** *** [get_time_diff_days]: errors *)

(** X17: a naive timestamp and one that carries a zone cannot be
    subtracted: the helper raises [TypeError] on such a pair; and since a
    string is read as a naive timestamp, it raises on a string paired
    with a zone-carrying timestamp too. *)
Theorem get_time_diff_days_mixed (a e : datetime) (s : string) (d : datetime) :
  tzinfo a = None -> tzinfo e <> None ->
  parser_parse s = Ok d ->
  get_time_diff_days parser_parse (DDatetime a) (DDatetime e) = Raise TypeError
  /\ get_time_diff_days parser_parse (DDatetime e) (DDatetime a) = Raise TypeError
  /\ get_time_diff_days parser_parse (DStr s) (DDatetime e) = Raise TypeError
  /\ get_time_diff_days parser_parse (DDatetime e) (DStr s) = Raise TypeError.
Proof.
  intros Ha He Hs. unfold get_time_diff_days, as_datetime, dt_sub.
  rewrite Hs. cbn [mbind result_bind replace_tzinfo tzinfo]. rewrite Ha.
  destruct (tzinfo e); [|contradiction]. repeat split; reflexivity.
Qed.

(** X18: a string that [parser.parse] cannot read makes the helper raise
    what the parser raised, unless the other argument is [None]; when
    neither string can be read it is the error of [start]. *)
Theorem get_time_diff_days_parse_error (s : string) (err : exn) (x : date_arg) :
  parser_parse s = Raise err ->
  x <> DNone ->
  get_time_diff_days parser_parse (DStr s) x = Raise err
  /\ (forall d, x = DDatetime d ->
        get_time_diff_days parser_parse x (DStr s) = Raise err)
  /\ (forall t d, x = DStr t -> parser_parse t = Ok d ->
        get_time_diff_days parser_parse x (DStr s) = Raise err).
Proof.
  intros Hs Hx. unfold get_time_diff_days, as_datetime.
  repeat split.
  - destruct x; [contradiction | |]; rewrite Hs; reflexivity.
  - intros d ->. cbn [mbind result_bind]. rewrite Hs. reflexivity.
  - intros t d -> Ht. rewrite Ht. cbn [mbind result_bind]. rewrite Hs. reflexivity.
Qed.

(** *** [get_time_diff_days]: the value *)


Lemma binary_round_aux_opp (s : bool) (m e : Z) (l : location) :
  binary_round_aux prec64 emax64 (negb s) m e l
  = SFopp (binary_round_aux prec64 emax64 s m e l).
Proof.
  unfold binary_round_aux.
  destruct (shr_fexp prec64 emax64 m e l) as [mrs' e'].
  destruct (shr_fexp prec64 emax64 _ e' loc_Exact) as [mrs'' e''].
  destruct (shr_m mrs''); [reflexivity | | reflexivity].
  now destruct (e'' <=? emax64 - prec64).
Qed.

Lemma f64_of_ratio_opp (s : bool) (n d : positive) :
  f64_of_ratio (negb s) n d = SFopp (f64_of_ratio s n d).
Proof.
  unfold f64_of_ratio.
  destruct (SFdiv_core_binary prec64 emax64 (Z.pos n) 0 (Z.pos d) 0) as [[q e] l].
  apply binary_round_aux_opp.
Qed.

Lemma total_seconds_opp (td : Z) :
  td <> 0 -> total_seconds (- td) = SFopp (total_seconds td).
Proof.
  intros Hne. unfold total_seconds, int_truediv.
  change (10 ^ 6) with 1000000.
  destruct td as [|p|p]; [contradiction | |]; cbn [Z.opp].
  - apply (f64_of_ratio_opp false).
  - change false with (negb true). apply (f64_of_ratio_opp true).
Qed.

Lemma f64_div_opp (x : spec_float) (m : positive) (e : Z) :
  f64_div (SFopp x) (S754_finite false m e) = SFopp (f64_div x (S754_finite false m e)).
Proof.
  unfold f64_div, SFdiv. destruct x as [s|s| |s mx ex]; cbn [SFopp]; try reflexivity.
  - now destruct s.
  - now destruct s.
  - destruct (SFdiv_core_binary prec64 emax64 (Z.pos mx) ex (Z.pos m) e) as [[q e'] l].
    rewrite !xorb_false_r. apply binary_round_aux_opp.
Qed.

Lemma float_of_format_2f_opp (x : spec_float) :
  float_of_format_2f (SFopp x) = SFopp (float_of_format_2f x).
Proof.
  unfold float_of_format_2f, format_2f. destruct x as [s|s| |s m e]; try reflexivity.
  cbn [SFopp]. unfold f64_of_decimal.
  destruct (match e with Z.neg k => _ | _ => _ end); try reflexivity.
  apply f64_of_ratio_opp.
Qed.

Lemma seconds_day_finite :
  f64_of_Z (60 * 60 * 24) = S754_finite false 5937362789990400 (-36).
Proof. vm_compute. reflexivity. Qed.

(** X20: swapping two timestamps that differ negates the day
    difference; two timestamps at the same instant give zero either way. *)
Theorem get_time_diff_days_swap (start end_ : datetime) (td : Z) :
  dt_sub end_ start = Ok td ->
  exists r,
    get_time_diff_days parser_parse (DDatetime start) (DDatetime end_) = Ok (Some r)
    /\ (td <> 0 ->
        get_time_diff_days parser_parse (DDatetime end_) (DDatetime start)
        = Ok (Some (f64_opp r)))
    /\ (td = 0 ->
        r = S754_zero false
        /\ get_time_diff_days parser_parse (DDatetime end_) (DDatetime start)
           = Ok (Some r)).
Proof.
  intros Htd.
  assert (Hback : dt_sub start end_ = Ok (- td)).
  { unfold dt_sub in *. destruct (tzinfo end_), (tzinfo start);
      try discriminate; injection Htd as <-; f_equal; lia. }
  unfold get_time_diff_days, as_datetime. cbn [mbind result_bind].
  rewrite Htd, Hback. cbn [mbind result_bind].
  eexists; split; [reflexivity|]. split.
  - intros Hne. unfold f64_opp.
    rewrite total_seconds_opp by assumption.
    rewrite seconds_day_finite, f64_div_opp, float_of_format_2f_opp. reflexivity.
  - intros ->. split; reflexivity.
Qed.

(** *** [get_time_diff_days] never returns a NaN *)

Lemma shr_1_nonneg (mrs : shr_record) : 0 <= shr_m mrs -> 0 <= shr_m (shr_1 mrs).
Proof.
  destruct mrs as [m r s]. cbn [shr_m]. intros Hm.
  destruct m as [|p|p]; [reflexivity | destruct p; cbn; lia | lia].
Qed.

Lemma iter_pos_shr_1_nonneg (p : positive) (mrs : shr_record) :
  0 <= shr_m mrs -> 0 <= shr_m (SpecFloat.iter_pos shr_1 p mrs).
Proof.
  revert mrs. induction p as [p IH|p IH|]; intros mrs Hm; cbn [SpecFloat.iter_pos].
  - apply IH, IH, shr_1_nonneg, Hm.
  - apply IH, IH, Hm.
  - apply shr_1_nonneg, Hm.
Qed.

Lemma shr_fexp_nonneg (m e : Z) (l : location) :
  0 <= m -> 0 <= shr_m (fst (shr_fexp prec64 emax64 m e l)).
Proof.
  intros Hm. unfold shr_fexp, shr.
  assert (Hrec : 0 <= shr_m (shr_record_of_loc m l)) by (now destruct l as [|[]]).
  destruct (fexp prec64 emax64 (Zdigits2 m + e) - e); cbn [fst]; try assumption.
  now apply iter_pos_shr_1_nonneg.
Qed.

Lemma round_nearest_even_nonneg (m : Z) (l : location) :
  0 <= m -> 0 <= round_nearest_even m l.
Proof.
  intros Hm. destruct l as [|[]]; cbn [round_nearest_even]; try lia.
  destruct (Z.even m); lia.
Qed.

Lemma binary_round_aux_not_nan (s : bool) (m e : Z) (l : location) :
  0 <= m -> is_nan (binary_round_aux prec64 emax64 s m e l) = false.
Proof.
  intros Hm. unfold binary_round_aux.
  pose proof (shr_fexp_nonneg m e l Hm) as H1.
  destruct (shr_fexp prec64 emax64 m e l) as [mrs' e']. cbn [fst] in H1.
  pose proof (shr_fexp_nonneg _ e' loc_Exact
                (round_nearest_even_nonneg _ (loc_of_shr_record mrs') H1)) as H2.
  destruct (shr_fexp prec64 emax64 _ e' loc_Exact) as [mrs'' e'']. cbn [fst] in H2.
  destruct (shr_m mrs''); [reflexivity | | lia].
  now destruct (e'' <=? emax64 - prec64).
Qed.

Lemma SFdiv_core_binary_nonneg (m1 m2 : positive) (e1 e2 : Z) :
  0 <= fst (fst (SFdiv_core_binary prec64 emax64 (Z.pos m1) e1 (Z.pos m2) e2)).
Proof.
  unfold SFdiv_core_binary.
  set (s := e1 - e2 - _).
  set (m' := match s with Z.pos _ => Z.shiftl (Z.pos m1) s | 0 => Z.pos m1 | Z.neg _ => 0 end).
  assert (Hm' : 0 <= m').
  { subst m'. destruct s; [lia | | lia]. apply Z.shiftl_nonneg. lia. }
  pose proof (Z.div_pos m' (Z.pos m2) Hm' ltac:(lia)) as Hq.
  unfold Z.div in Hq. destruct (Z.div_eucl m' (Z.pos m2)) as [q r]. exact Hq.
Qed.

Lemma f64_of_ratio_not_nan (s : bool) (n d : positive) :
  is_nan (f64_of_ratio s n d) = false.
Proof.
  unfold f64_of_ratio.
  pose proof (SFdiv_core_binary_nonneg n d 0 0) as Hq.
  destruct (SFdiv_core_binary prec64 emax64 (Z.pos n) 0 (Z.pos d) 0) as [[q e] l].
  now apply binary_round_aux_not_nan.
Qed.

Lemma total_seconds_not_nan (td : Z) : is_nan (total_seconds td) = false.
Proof.
  unfold total_seconds, int_truediv. change (10 ^ 6) with 1000000.
  destruct td; [reflexivity | |]; apply f64_of_ratio_not_nan.
Qed.

Lemma f64_div_not_nan (x : spec_float) (m : positive) (e : Z) :
  is_nan x = false -> is_nan (f64_div x (S754_finite false m e)) = false.
Proof.
  unfold f64_div, SFdiv. destruct x as [s|s| |s mx ex]; try reflexivity; [discriminate|].
  intros _.
  pose proof (SFdiv_core_binary_nonneg mx m ex e) as Hq.
  destruct (SFdiv_core_binary prec64 emax64 (Z.pos mx) ex (Z.pos m) e) as [[q e'] l].
  now apply binary_round_aux_not_nan.
Qed.

Lemma float_of_format_2f_not_nan (x : spec_float) :
  is_nan x = false -> is_nan (float_of_format_2f x) = false.
Proof.
  unfold float_of_format_2f, format_2f.
  destruct x as [s|s| |s m e]; try reflexivity; [discriminate|].
  intros _. unfold f64_of_decimal.
  destruct (match e with Z.neg k => _ | _ => _ end); try reflexivity.
  apply f64_of_ratio_not_nan.
Qed.

(** X21: whenever [get_time_diff_days] returns a float it is a number,
    never a NaN, whatever the dates and however far apart they are. *)
Theorem get_time_diff_days_not_nan (start end_ : date_arg) (r : spec_float) :
  get_time_diff_days parser_parse start end_ = Ok (Some r) ->
  is_nan r = false.
Proof.
  unfold get_time_diff_days. rewrite seconds_day_finite. intros H.
  assert (Hgen : forall a b : result datetime,
    (a' ← a; b' ← b; td ← dt_sub b' a';
     Ok (Some (float_of_format_2f
                 (f64_div (total_seconds td)
                    (S754_finite false 5937362789990400 (-36))))))
    = Ok (Some r) -> is_nan r = false).
  { intros [a'|ea] [b'|eb]; cbn [mbind result_bind]; try discriminate.
    destruct (dt_sub b' a') as [td|e]; cbn [mbind result_bind]; [|discriminate].
    intros [= <-].
    apply float_of_format_2f_not_nan, f64_div_not_nan, total_seconds_not_nan. }
  destruct start as [|s|s], end_ as [|e|e]; try discriminate; exact (Hgen _ _ H).
Qed.

(** *** The failures of [get_last_enrich] *)





End Properties.

(** * The properties on concrete commands and indexes *)

Lemma isoparse_epoch : isoparse "1970-01-01" = Ok epoch_start.
Proof. vm_compute. reflexivity. Qed.

Lemma get_last_enrich_baseline_min_witness :
  get_last_enrich github_url isoparse (Some git_default_cmd) git_index
  = Ok (WDate (naive 2020 1 5 0 0 0)).
Proof.
  refine (proj1 (get_last_enrich_baseline_min github_url isoparse isoparse_epoch
                   git_index (naive 2020 1 10 0 0 0) eq_refl eq_refl
                   git_default_cmd git_filter _)
            (utc epoch_start) None _ _ _ _).
  - by_computation.
  - decide_elem.
  - by_computation.
  - by_computation.
  - by_computation.
Defined.

(** The claim of C1 as it stands fails on a baseline that carries a zone:
    [min] cannot order it against the filtered date, whose zone was
    dropped. *)
Lemma get_last_enrich_aware_baseline_raises :
  get_last_enrich github_url isoparse (Some git_default_cmd)
    (enriched "git" (Some (utc (naive 2020 1 10 0 0 0)))
       None (Some (utc (naive 2020 1 5 0 0 0))) None)
  = Raise TypeError.
Proof. by_computation. Qed.

Lemma get_last_enrich_explicit_from_date_witness :
  get_last_enrich github_url isoparse
    (Some (parsed_command git_backend (Attr (Some (utc (naive 2019 6 1 0 0 0)))) NoAttr))
    git_index
  = Ok (WDate (utc (naive 2019 6 1 0 0 0))).
Proof.
  refine (get_last_enrich_explicit_from_date github_url isoparse isoparse_epoch
            _ git_index (utc (naive 2019 6 1 0 0 0)) None _ _ _ _).
  - decide_elem.
  - by_computation.
  - by_computation.
  - by_computation.
Defined.

Lemma get_last_enrich_offset_resume_witness :
  get_last_enrich github_url isoparse
    (Some (command kitsune_backend NoAttr (Attr (Some 120)))) kitsune_index
  = Ok (WOffset 120)
  /\
  get_last_enrich github_url isoparse
    (Some (command kitsune_backend NoAttr (Attr (Some 0)))) kitsune_index
  = Ok (WOffset 3400).
Proof.
  split.
  - refine (proj1 (get_last_enrich_offset_resume github_url isoparse
                     (command kitsune_backend NoAttr (Attr (Some 120))) kitsune_index
                     120 kitsune_filter _ _ _ _) _).
    + decide_elem.
    + by_computation.
    + by_computation.
    + by_computation.
    + discriminate.
  - refine (proj2 (get_last_enrich_offset_resume github_url isoparse
                     (command kitsune_backend NoAttr (Attr (Some 0))) kitsune_index
                     0 kitsune_filter _ _ _ _) _).
    + decide_elem.
    + by_computation.
    + by_computation.
    + by_computation.
    + reflexivity.
Defined.

Lemma get_last_enrich_absent_data_witness :
  get_last_enrich github_url isoparse (Some git_default_cmd)
    (enriched "git" None None None None)
  = Ok WNone.
Proof.
  refine (proj2 (get_last_enrich_absent_data github_url isoparse isoparse_epoch
                   git_default_cmd (enriched "git" None None None None)
                   (Some (utc epoch_start)) None _ _ _) _).
  - by_computation.
  - by_computation.
  - by_computation.
  - by_computation.
Defined.

(** The claim of C6 as it stands fails on a connector whose [fetch]
    declares [offset] only, when the command holds no offset: the
    resolver falls to the baseline and returns a timestamp. *)
Lemma offset_connector_gets_timestamp :
  ("offset" ∈ fetch_parameters kitsune_backend)
  /\ ("from_date" ∉ fetch_parameters kitsune_backend)
  /\ get_last_enrich github_url isoparse
       (Some (command kitsune_backend NoAttr (Attr None))) kitsune_index
     = Ok (WDate (naive 2020 1 10 0 0 0)).
Proof.
  split; [decide_elem | split; [decide_elem | by_computation]].
Qed.

Lemma get_last_enrich_watermark_kind_witness :
  (exists w,
     get_last_enrich github_url isoparse
       (Some (command kitsune_backend NoAttr (Attr (Some 0)))) kitsune_index = Ok w
     /\ is_offset_or_null w = true)
  /\ is_timestamp_or_null (WDate (naive 2020 1 5 0 0 0)) = true.
Proof.
  split.
  - refine (proj1 (proj2 (get_last_enrich_watermark_kind github_url isoparse isoparse_epoch
                     (command kitsune_backend NoAttr (Attr (Some 0))) kitsune_index))
              0 _ _); by_computation.
  - refine (proj1 (get_last_enrich_watermark_kind github_url isoparse isoparse_epoch
                     git_default_cmd git_index)
              (WDate (naive 2020 1 5 0 0 0)) _ _).
    + decide_elem.
    + by_computation.
Defined.

Lemma get_repository_filter_field_value_witness :
  get_repository_filter github_url (Some jira_backend) "jira" false
  = Ok (PDict {[ "name" := PStr "tag";
                 "value" := PStr "https://jira.example.org/projects/ELK" ]})
  /\
  get_repository_filter github_url (Some jira_backend) "git" false
  = Ok (PDict {[ "name" := PStr "origin"; "value" := PStr "https://jira.example.org" ]}).
Proof.
  split.
  - refine (proj1 (get_repository_filter_field_value github_url jira_backend "jira") _ _);
      decide_elem.
  - refine (proj2 (get_repository_filter_field_value github_url jira_backend "git") _ _);
      decide_elem.
Defined.

Lemma get_repository_filter_empty_witness :
  get_repository_filter github_url (Some github_root) "github" true = Ok (PDict ∅)
  /\ get_repository_filter github_url (Some github_root) "meetup" false = Ok (PDict ∅).
Proof.
  split.
  - refine (proj2 (get_repository_filter_empty github_url) github_root "github" true _ _).
    + decide_elem.
    + intros _ _. by_computation.
  - refine (proj2 (get_repository_filter_empty github_url) github_root "meetup" false _ _).
    + decide_elem.
    + discriminate.
Defined.

Lemma get_min_last_enrich_without_filtered_witness :
  get_last_enrich github_url isoparse (Some git_default_cmd)
    (enriched "git" (Some (utc (naive 2020 1 10 0 0 0))) None None None)
  = Ok (WDate (utc (naive 2020 1 10 0 0 0))).
Proof.
  refine (proj2 (proj2 (get_min_last_enrich_without_filtered github_url isoparse isoparse_epoch)
                   git_default_cmd
                   (enriched "git" (Some (utc (naive 2020 1 10 0 0 0))) None None None)
                   (utc (naive 2020 1 10 0 0 0)) (Some (utc epoch_start)) None git_filter
                   _ _ _ _ _) _); by_computation.
Defined.

(** The claim of C9 as it stands fails on dates that carry a zone: as
    strings they are a day apart on the clock, which is what the helper
    returns, while the timestamps [parser.parse] reads from them are
    twelve hours apart, which is what it returns for them. *)
Lemma get_time_diff_days_zone_dropped :
  isoparse "2020-01-01T00:00:00+00:00" = Ok (utc (naive 2020 1 1 0 0 0))
  /\ isoparse "2020-01-02T00:00:00+12:00"
     = Ok (replace_tzinfo (Some (12 * 3600 * US_PER_SECOND)) (naive 2020 1 2 0 0 0))
  /\ get_time_diff_days isoparse
       (DStr "2020-01-01T00:00:00+00:00") (DStr "2020-01-02T00:00:00+12:00")
     = Ok (Some (f64_of_decimal false 100 (-2)))
  /\ get_time_diff_days isoparse
       (DDatetime (utc (naive 2020 1 1 0 0 0)))
       (DDatetime (replace_tzinfo (Some (12 * 3600 * US_PER_SECOND)) (naive 2020 1 2 0 0 0)))
     = Ok (Some (f64_of_decimal false 50 (-2))).
Proof. repeat split; by_computation. Qed.

Lemma get_time_diff_days_spec_witness :
  get_time_diff_days isoparse (DStr "2020-01-01") (DDatetime (naive 2020 1 2 12 0 0))
  = get_time_diff_days isoparse
      (DDatetime (naive 2020 1 1 0 0 0)) (DDatetime (naive 2020 1 2 12 0 0))
  /\
  exists r,
    get_time_diff_days isoparse
      (DDatetime (naive 2020 1 1 0 0 0)) (DDatetime (naive 2020 1 1 0 7 12)) = Ok (Some r)
    /\ rounded_to_hundredths
         (f64_div (total_seconds (432 * US_PER_SECOND)) (f64_of_Z (60 * 60 * 24))) r.
Proof.
  split.
  - refine (proj1 (proj1 (proj2 (get_time_diff_days_spec isoparse))
                     "2020-01-01" (naive 2020 1 1 0 0 0)
                     (DDatetime (naive 2020 1 2 12 0 0)) _)).
    by_computation.
  - refine (proj2 (proj2 (get_time_diff_days_spec isoparse))
              (naive 2020 1 1 0 0 0) (naive 2020 1 1 0 7 12) (432 * US_PER_SECOND) _).
    by_computation.
Defined.

(** Seven minutes and twelve seconds are 0.005 of a day, which the float
    quotient holds just above the tie: the helper returns 0.01. *)
Example get_time_diff_days_432_seconds :
  get_time_diff_days isoparse
    (DDatetime (naive 2020 1 1 0 0 0)) (DDatetime (naive 2020 1 1 0 7 12))
  = Ok (Some (f64_of_decimal false 1 (-2))).
Proof. by_computation. Qed.

(** * The further properties on concrete inputs *)

Lemma get_repository_filter_term_witness :
  get_repository_filter github_url (Some jira_backend) "jira" true
  = Ok (PDict {[ "term" :=
                   PDict {[ "tag" := PStr "https://jira.example.org/projects/ELK" ]} ]}).
Proof.
  refine (get_repository_filter_term github_url jira_backend "jira" _ _);
    [by_computation | decide_elem].
Defined.

Lemma get_repository_filter_term_raises_witness :
  get_repository_filter github_url (Some tabbed_backend) "git" true
  = Raise JSONDecodeError.
Proof.
  refine (get_repository_filter_term_raises github_url tabbed_backend "git"
            "https://example.org/a" (String char_tab "b") _ _ _); by_computation.
Defined.

Lemma get_repository_filter_term_unescapes_witness :
  get_repository_filter github_url (Some windows_backend) "git" true
  = Ok (PDict {[ "term" := PDict {[ "origin" := PStr ("C:" +:+ String char_cr "epos") ]} ]}).
Proof.
  refine (proj1 (get_repository_filter_term_unescapes github_url windows_backend "git"
                   "C:" "epos" "r" char_cr _ _ _ _ _)).
  - by_computation.
  - by_computation.
  - by_computation.
  - by_computation.
  - decide_elem.
Defined.

Lemma get_min_last_enrich_raises_witness :
  get_min_last_enrich (Some (utc (naive 2020 1 10 0 0 0)))
    (Some (utc (naive 2020 1 5 0 0 0)))
  = Raise TypeError.
Proof.
  refine (get_min_last_enrich_raises (Some (utc (naive 2020 1 10 0 0 0)))
            (utc (naive 2020 1 5 0 0 0)) _).
  intros d [= <-]. discriminate.
Defined.

Lemma get_min_last_enrich_lower_bound_witness :
  exists m,
    get_min_last_enrich (Some (naive 2020 1 10 0 0 0)) (Some (utc (naive 2020 1 5 0 0 0)))
    = Ok (Some m)
    /\ wall m <= wall (naive 2020 1 10 0 0 0)
    /\ wall m <= wall (utc (naive 2020 1 5 0 0 0)).
Proof.
  destruct (get_min_last_enrich_lower_bound (naive 2020 1 10 0 0 0)
              (utc (naive 2020 1 5 0 0 0)) eq_refl) as (m & Hm & _ & Hb & Hf & _).
  exists m. auto.
Defined.

Lemma get_last_enrich_unreadable_witness :
  get_last_enrich github_url isoparse (Some (command git_backend NoAttr NoAttr)) git_index
  = Raise AttributeError.
Proof.
  refine (proj1 (get_last_enrich_unreadable github_url isoparse
                   (command git_backend NoAttr NoAttr) git_index) _ _ _).
  - decide_elem.
  - reflexivity.
  - intros pa H. discriminate H.
Defined.

Lemma get_last_enrich_undeclared_witness :
  get_last_enrich github_url isoparse
    (Some (command plain_backend (Attr (Some (utc (naive 2019 6 1 0 0 0)))) (Attr (Some 5))))
    git_index
  = get_last_enrich github_url isoparse (Some (command plain_backend NoAttr NoAttr))
      git_index.
Proof.
  refine (get_last_enrich_undeclared github_url isoparse
            (command plain_backend NoAttr NoAttr) _ git_index _ _ _).
  - reflexivity.
  - decide_elem.
  - decide_elem.
Defined.

Lemma get_last_enrich_from_date_first_witness :
  get_last_enrich github_url isoparse
    (Some (command dual_backend (Attr (Some (utc epoch_start))) (Attr (Some 120))))
    git_index
  = get_last_enrich github_url isoparse
      (Some (command dual_backend (Attr (Some (utc epoch_start))) (Attr (Some 0))))
      git_index.
Proof.
  refine (proj1 (get_last_enrich_from_date_first github_url isoparse isoparse_epoch
                   (command dual_backend (Attr (Some (utc epoch_start))) (Attr (Some 0)))
                   (command dual_backend (Attr (Some (utc epoch_start))) (Attr (Some 120)))
                   git_index (utc epoch_start) (Some 0) (Some 120) _ _ _ _ _));
    by_computation.
Defined.

Lemma get_last_enrich_aware_baseline_witness :
  get_last_enrich github_url isoparse
    (Some (command kitsune_backend NoAttr (Attr None))) aware_index
  = Raise TypeError.
Proof.
  refine (get_last_enrich_aware_baseline github_url isoparse isoparse_epoch
            (command kitsune_backend NoAttr (Attr None)) aware_index
            (utc (naive 2020 1 10 0 0 0)) (utc (naive 2020 1 5 0 0 0))
            None None kitsune_filter _ _ _ _ _ _ _);
    try by_computation.
  discriminate.
Defined.

Lemma get_last_enrich_sentinel_filter_witness :
  get_last_enrich github_url isoparse
    (Some (command whole_site_backend NoAttr (Attr (Some 0)))) kitsune_index
  = Ok (WOffset 3400).
Proof.
  refine (get_last_enrich_sentinel_filter github_url isoparse
            (command whole_site_backend NoAttr (Attr (Some 0))) kitsune_index _ _ _).
  - decide_elem.
  - by_computation.
  - by_computation.
Defined.


Lemma unixtime_to_datetime_range_witness :
  unixtime_to_datetime 253402300800 = None
  /\ unixtime_to_datetime 253402300799 <> None.
Proof.
  split.
  - refine (proj2 (unixtime_to_datetime_range 253402300800) _). right. reflexivity.
  - intros H. apply (proj1 (unixtime_to_datetime_range 253402300799)) in H.
    destruct H as [H|H]; discriminate H.
Defined.



Lemma get_diff_current_date_back_witness :
  dt_sub (utc (naive 2020 1 10 12 0 0)) (utc (naive 2020 1 9 9 57 0))
  = Ok (((1 * 24 + 2) * 60 + 3) * 60 * US_PER_SECOND).
Proof.
  refine (proj1 (proj2 (get_diff_current_date_back (utc (naive 2020 1 10 12 0 0))
                          (utc (naive 2020 1 9 9 57 0)) 1 2 3 _))).
  by_computation.
Defined.

Lemma get_diff_current_date_total_witness :
  get_diff_current_date (utc (naive 2020 1 10 12 0 0)) 0 0 0
  = Some (utc (naive 2020 1 10 12 0 0)).
Proof.
  refine (proj2 (get_diff_current_date_total (utc (naive 2020 1 10 12 0 0)) 0 0 0) _).
  by_computation.
Defined.

Lemma get_time_diff_days_mixed_witness :
  get_time_diff_days isoparse (DStr "2020-01-01") (DDatetime (utc (naive 2020 1 2 0 0 0)))
  = Raise TypeError.
Proof.
  refine (proj1 (proj2 (proj2 (get_time_diff_days_mixed isoparse
                   (naive 2020 1 1 0 0 0) (utc (naive 2020 1 2 0 0 0))
                   "2020-01-01" (naive 2020 1 1 0 0 0) _ _ _)))).
  - reflexivity.
  - discriminate.
  - by_computation.
Defined.

Lemma get_time_diff_days_parse_error_witness :
  get_time_diff_days isoparse (DStr "yesterday") (DDatetime (naive 2020 1 2 0 0 0))
  = Raise ParserError.
Proof.
  refine (proj1 (get_time_diff_days_parse_error isoparse "yesterday" ParserError
                   (DDatetime (naive 2020 1 2 0 0 0)) _ _)).
  - by_computation.
  - discriminate.
Defined.


Lemma get_time_diff_days_swap_witness :
  exists r,
    get_time_diff_days isoparse
      (DDatetime (naive 2020 1 1 0 0 0)) (DDatetime (naive 2020 1 2 12 0 0)) = Ok (Some r)
    /\ get_time_diff_days isoparse
         (DDatetime (naive 2020 1 2 12 0 0)) (DDatetime (naive 2020 1 1 0 0 0))
       = Ok (Some (f64_opp r)).
Proof.
  destruct (get_time_diff_days_swap isoparse (naive 2020 1 1 0 0 0)
              (naive 2020 1 2 12 0 0) (36 * 3600 * US_PER_SECOND) ltac:(by_computation))
    as (r & Hr & Hswap & _).
  exists r. split; [exact Hr|]. apply Hswap. discriminate.
Defined.

Lemma get_time_diff_days_not_nan_witness :
  is_nan (f64_of_decimal false 150 (-2)) = false.
Proof.
  refine (get_time_diff_days_not_nan isoparse
            (DDatetime (naive 2020 1 1 0 0 0)) (DDatetime (naive 2020 1 2 12 0 0))
            (f64_of_decimal false 150 (-2)) _).
  by_computation.
Defined.
